(** * national-grid-live: the aggregation pipeline, embedded and verified

    A shallow embedding of the refresh scheduler
    ([src/utils/getNextFiveMinuteMark.ts]), of the dashboard's aggregation
    step ([fetchData] of the [Home] page), of the category projections
    ([GenerationPieChart], [FuelList]) and of the feed proxies
    ([pages/api/emissions.ts], [pages/api/pricing.ts], [pages/api/demand.ts]).
    Around these: [roundToLastFiveMinuteMark], the refresh timers of
    [Home], [GridInfoComponent], [DarkMode], the grid-info proxy, and the
    path from a proxy reply through [axios] to the page.

    Conventions.
    - A JavaScript time value is a [Z] (milliseconds since the epoch); the
      [Date] operations follow the ECMAScript abstract operations of the
      same names.  [JSDate] has the zones of one fixed offset, [Zoned] the
      zones whose offset changes, with Europe/London in 2024.
    - A JavaScript number is [NaN], an infinity or an exact rational, for
      the arithmetic of the page; statements about sums are made on whole
      numbers up to 2^53, where doubles are exact, and the sums of the
      chart are also taken over binary64 itself ([Chart64]).
    - A thrown exception is the [Throw] constructor of [completion]. *)

From Stdlib Require Import ZArith QArith Qround Qabs String Ascii List Bool Lia Lqa.
From Stdlib Require Import Setoid Morphisms.
From Stdlib Require DecimalString.
From Stdlib Require Floats.PrimFloat.
Import ListNotations.

#[local] Set Warnings "-register-all".
#[local] Set Warnings "-inexact-float".
Local Open Scope Z_scope.

(* ================================================================== *)
(** ** The refresh scheduler: [Date] arithmetic *)
(* ================================================================== *)

Module JSDate.

Definition msPerSecond : Z := 1000.
Definition msPerMinute : Z := 60000.
Definition msPerHour : Z := 3600000.
Definition msPerDay : Z := 86400000.

(** Largest magnitude of a valid time value (ECMAScript [TimeClip]). *)
Definition maxTimeValue : Z := 8640000000000000.

Definition Day (t : Z) : Z := t / msPerDay.
Definition HourFromTime (t : Z) : Z := (t / msPerHour) mod 24.
Definition MinFromTime (t : Z) : Z := (t / msPerMinute) mod 60.
Definition SecFromTime (t : Z) : Z := (t / msPerSecond) mod 60.
Definition msFromTime (t : Z) : Z := t mod msPerSecond.

Definition MakeTime (hour min sec ms : Z) : Z :=
  hour * msPerHour + min * msPerMinute + sec * msPerSecond + ms.

Definition MakeDate (day time : Z) : Z := day * msPerDay + time.

(** [None] is the invalid date (time value NaN). *)
Definition TimeClip (t : Z) : option Z :=
  if Z.abs t <=? maxTimeValue then Some t else None.

Section FixedOffsetZone.

(** The local time zone adjustment in milliseconds.  The zone of this
    section has one fixed offset; [Zoned] below has the zones whose
    offset changes (daylight saving). *)
Variable tza : Z.

Definition LocalTime (t : Z) : Z := t + tza.
Definition UTC (t : Z) : Z := t - tza.

(** [Date.prototype.getMinutes] on a valid date. *)
Definition getMinutes (tv : Z) : Z := MinFromTime (LocalTime tv).

(** [Date.prototype.setMinutes(min, sec, ms)] on a valid date: the new
    time value, out-of-range minutes carrying into the hour and day. *)
Definition setMinutes (tv min sec ms : Z) : option Z :=
  let t := LocalTime tv in
  let date := MakeDate (Day t) (MakeTime (HourFromTime t) min sec ms) in
  TimeClip (UTC date).

(** [getNextFiveMinuteMark].  The function reads the clock twice:
    [t_new] is what [new Date()] observed, [t_now] what the later
    [Date.now()] observed.  [None] is a NaN result. *)
Definition getNextFiveMinuteMark (t_new t_now : Z) : option Z :=
  let minutes := getMinutes t_new in
  let remaining := 5 - minutes mod 5 in
  match setMinutes t_new (minutes + remaining) 0 0 with
  | Some adjusted => Some (adjusted - t_now)
  | None => None
  end.

(** A wall-clock instant on the five-minute grid: minute divisible by
    five, seconds and milliseconds zero. *)
Definition onFiveMinuteMark (tv : Z) : Prop :=
  let t := LocalTime tv in
  MinFromTime t mod 5 = 0 /\ SecFromTime t = 0 /\ msFromTime t = 0.

End FixedOffsetZone.

(** The period of the grid, [5 * 60 * 1000] in [Home]'s [setInterval]. *)
Definition period : Z := 5 * 60 * 1000.

End JSDate.

(* ================================================================== *)
(** ** JavaScript numbers and values *)
(* ================================================================== *)

Module JS.

(** A number: NaN, an infinity ([Inf true] is [-Infinity]) or a finite
    value, kept as an exact rational.  The rounding of binary64 is not
    part of this type: sums, quotients and printed digits are those of
    the exact value.  On whole numbers up to 2^53 in magnitude ([Whole])
    sums are the same in both; [Chart64] has the sums of the chart over
    binary64 itself. *)
Inductive number : Type :=
| NaN
| Inf (negative : bool)
| Num (q : Q).

Definition zero : number := Num 0.

(** Sameness of two numbers as values: finite ones up to [Qeq]. *)
Definition num_eq (x y : number) : Prop :=
  match x, y with
  | NaN, NaN => True
  | Inf a, Inf b => a = b
  | Num p, Num q => (p == q)%Q
  | _, _ => False
  end.

Definition neg (x : number) : number :=
  match x with
  | NaN => NaN
  | Inf b => Inf (negb b)
  | Num q => Num (- q)%Q
  end.

(** [x + y], without rounding. *)
Definition add (x y : number) : number :=
  match x, y with
  | NaN, _ | _, NaN => NaN
  | Inf a, Inf b => if Bool.eqb a b then Inf a else NaN
  | Inf a, Num _ => Inf a
  | Num _, Inf b => Inf b
  | Num p, Num q => Num (p + q)%Q
  end.

(** [x - y]. *)
Definition sub (x y : number) : number := add x (neg y).

(** [x / 1000], the only division of the program. *)
Definition div1000 (x : number) : number :=
  match x with
  | NaN => NaN
  | Inf b => Inf b
  | Num q => Num (q / 1000)%Q
  end.

(** [ToBoolean] on a number: [0] and [NaN] are falsy. *)
Definition truthyNumber (x : number) : bool :=
  match x with
  | NaN => false
  | Inf _ => true
  | Num q => negb (Qeq_bool q 0)
  end.

(** [x || y] on numbers. *)
Definition orNumber (x y : number) : number :=
  if truthyNumber x then x else y.

(** *** [Number.prototype.toFixed] *)

(** The integer [n] for which [n / 10^f - x] is closest to zero, the larger
    one on a tie, for [x >= 0]. *)
Definition roundFixed (f : nat) (x : Q) : Z :=
  Qfloor (x * inject_Z (10 ^ Z.of_nat f) + (1 # 2))%Q.

Fixpoint zeros (k : nat) : string :=
  match k with
  | O => EmptyString
  | S k' => String "0" (zeros k')
  end.

(** The digits of [n], padded to at least [f + 1] characters, with a point
    before the last [f]. *)
Definition placePoint (f : nat) (n : Z) : string :=
  let m := DecimalString.NilZero.string_of_uint (N.to_uint (Z.to_N n)) in
  let m := (zeros (S f - String.length m) ++ m)%string in
  let k := String.length m in
  match f with
  | O => m
  | _ => (substring 0 (k - f) m ++ "." ++ substring (k - f) f m)%string
  end.

(** [x.toFixed(f)], of the exact value.  Magnitudes of [10^21] and more,
    which JavaScript prints in exponent notation, are printed
    positionally here. *)
Definition toFixed (f : nat) (x : number) : string :=
  match x with
  | NaN => "NaN"
  | Inf false => "Infinity"
  | Inf true => "-Infinity"
  | Num q =>
      if Qle_bool 0 q then placePoint f (roundFixed f q)
      else ("-" ++ placePoint f (roundFixed f (- q)%Q))%string
  end.

(** *** [parseFloat] on strings *)

(** ASCII white space (tab, line feed, vertical tab, form feed, carriage
    return, space); the non-ASCII white space of ECMAScript is left out. *)
Definition isWhiteSpace (c : ascii) : bool :=
  let n := N_of_ascii c in
  ((9 <=? n) && (n <=? 13) || (n =? 32))%N.

Fixpoint trimStart (s : string) : string :=
  match s with
  | String c s' => if isWhiteSpace c then trimStart s' else s
  | EmptyString => s
  end.

Definition digitOf (c : ascii) : option Z :=
  let n := Z.of_N (N_of_ascii c) in
  if (48 <=? n) && (n <=? 57) then Some (n - 48) else None.

(** Reads the longest run of decimal digits: its value on top of [acc],
    its length on top of [cnt], and what follows it. *)
Fixpoint readDigits (s : string) (acc : Z) (cnt : nat) : Z * nat * string :=
  match s with
  | String c s' =>
      match digitOf c with
      | Some d => readDigits s' (10 * acc + d) (S cnt)
      | None => (acc, cnt, s)
      end
  | EmptyString => (acc, cnt, s)
  end.

(** An [ExponentPart] at the head of [s], if there is a complete one. *)
Definition readExponent (s : string) : Z :=
  match s with
  | String c s' =>
      if (Ascii.eqb c "e" || Ascii.eqb c "E")%bool then
        let '(negative, s'') :=
          match s' with
          | String "-" r => (true, r)
          | String "+" r => (false, r)
          | _ => (false, s')
          end in
        let '(e, cnt, _) := readDigits s'' 0 0 in
        match cnt with
        | O => 0
        | _ => if negative then - e else e
        end
      else 0
  | EmptyString => 0
  end.

Definition scale10 (m e : Z) : Q :=
  if 0 <=? e then inject_Z (m * 10 ^ e)
  else (inject_Z m / inject_Z (10 ^ (- e)))%Q.

(** The longest prefix that is a [StrUnsignedDecimalLiteral]. *)
Definition parseUnsigned (s : string) : number :=
  if prefix "Infinity" s then Inf false
  else
    let '(i, ci, rest) := readDigits s 0 0 in
    match rest with
    | String "." rest' =>
        let '(m, cm, rest'') := readDigits rest' i ci in
        match cm with
        | O => NaN
        | _ => Num (scale10 m (readExponent rest'' - Z.of_nat (cm - ci)))
        end
    | _ =>
        match ci with
        | O => NaN
        | _ => Num (scale10 i (readExponent rest))
        end
    end.

Definition parseFloatString (s : string) : number :=
  match trimStart s with
  | String "-" r => neg (parseUnsigned r)
  | String "+" r => parseUnsigned r
  | r => parseUnsigned r
  end.

(** *** Values *)

(** A value as [JSON.parse] or a typed feed hands it to the program.
    An object is the list of its own properties. *)
Inductive value : Type :=
| VUndefined
| VNull
| VBool (b : bool)
| VNum (n : number)
| VStr (s : string)
| VArr (items : list value)
| VObj (props : list (string * value)).

(** [ToBoolean]. *)
Definition truthy (v : value) : bool :=
  match v with
  | VUndefined | VNull => false
  | VBool b => b
  | VNum n => truthyNumber n
  | VStr s => negb (String.eqb s "")
  | VArr _ | VObj _ => true
  end.

(** [a || b]. *)
Definition or (a b : value) : value := if truthy a then a else b.

Fixpoint lookup (key : string) (props : list (string * value)) : value :=
  match props with
  | [] => VUndefined
  | (k, v) :: rest => if String.eqb k key then v else lookup key rest
  end.

(** Outcome of an evaluation that may throw. *)
Inductive completion (A : Type) : Type :=
| Return (a : A)
| Throw (message : string).
Arguments Return {A} a.
Arguments Throw {A} message.

(** [v.name] for one of the names the program reads ([data], [price],
    [intensity], [forecast], [ND], the flow columns): a TypeError on
    [undefined] and [null], the own property of an object, and
    [undefined] on every other value, none of which has such a property. *)
Definition getProp (v : value) (name : string) : completion value :=
  match v with
  | VUndefined | VNull =>
      Throw ("TypeError: Cannot read properties of undefined or null (reading '"
               ++ name ++ "')")
  | VObj props => Return (lookup name props)
  | _ => Return VUndefined
  end.

(** [v?.name]. *)
Definition optProp (v : value) (name : string) : value :=
  match v with
  | VObj props => lookup name props
  | _ => VUndefined
  end.

(** [v?.[0]]. *)
Definition optFirst (v : value) : value :=
  match v with
  | VArr (x :: _) => x
  | VObj props => lookup "0" props
  | VStr (String c _) => VStr (String c EmptyString)
  | _ => VUndefined
  end.

(** [parseFloat(v)]: [parseFloat] of [ToString(v)].  A number prints to a
    string that parses back to it; [undefined], [null], booleans and
    objects print to text that is no number; an array prints its items
    joined by commas, so only its first item is read. *)
Fixpoint parseFloat (v : value) : number :=
  match v with
  | VStr s => parseFloatString s
  | VNum n => n
  | VArr (x :: _) => parseFloat x
  | _ => NaN
  end.

End JS.

(* ================================================================== *)
(** ** The generation mix and its category projections *)
(* ================================================================== *)

Module Mix.
Import JS.

(** [GenerationMixItem] of [types.ts]; the components read it through the
    narrower [FuelSource], that is [fuel] and [carbonIntensityPercentage]. *)
Record GenerationMixItem : Type := {
  fuel : string;
  generation : string;
  time : string;
  carbonIntensityPercentage : option number
}.

(** [Array.prototype.includes] on strings. *)
Definition includes (xs : list string) (x : string) : bool :=
  existsb (String.eqb x) xs.

(** [String.prototype.toLowerCase], on ASCII letters. *)
Definition lowerAscii (c : ascii) : ascii :=
  let n := N_of_ascii c in
  if ((65 <=? n) && (n <=? 90))%N then ascii_of_N (n + 32) else c.

Fixpoint toLowerCase (s : string) : string :=
  match s with
  | EmptyString => EmptyString
  | String c s' => String (lowerAscii c) (toLowerCase s')
  end.

(** *** [GenerationPieChart] *)

(** [parseFloat(fuel.carbonIntensityPercentage?.toString() || "0")]:
    a missing percentage reads as the text ["0"]; a number prints to a
    non-empty text that parses back to it. *)
Definition share (f : GenerationMixItem) : number :=
  match carbonIntensityPercentage f with
  | None => parseFloatString "0"
  | Some n => n
  end.

(** The inner ring. *)
Definition fuelLabels (generationMix : list GenerationMixItem) : list string :=
  map fuel generationMix.

Definition fuelData (generationMix : list GenerationMixItem) : list number :=
  map share generationMix.

Definition sumShares (acc : number) (f : GenerationMixItem) : number :=
  add acc (share f).

Definition isRenewable (f : GenerationMixItem) : bool :=
  includes ["wind"; "solar"; "hydro"]%string (fuel f).

Definition isFossilFuel (f : GenerationMixItem) : bool :=
  includes ["coal"; "gas"; "oil"]%string (fuel f).

Definition isOther (f : GenerationMixItem) : bool :=
  negb (includes ["wind"; "solar"; "hydro"; "coal"; "gas"; "oil"]%string
          (fuel f)).

Definition renewables (generationMix : list GenerationMixItem) : number :=
  fold_left sumShares (filter isRenewable generationMix) zero.

Definition fossilFuels (generationMix : list GenerationMixItem) : number :=
  fold_left sumShares (filter isFossilFuel generationMix) zero.

Definition others (generationMix : list GenerationMixItem) : number :=
  fold_left sumShares (filter isOther generationMix) zero.

(** The outer ring and its labels. *)
Definition aggregateData (generationMix : list GenerationMixItem)
  : list number :=
  [renewables generationMix; fossilFuels generationMix; others generationMix].

Definition aggregateLabels : list string :=
  ["Renewables"; "Fossil Fuels"; "Other Sources"]%string.

(** *** [FuelList] *)

(** [source.carbonIntensityPercentage || 0]. *)
Definition listedShare (source : GenerationMixItem) : number :=
  match carbonIntensityPercentage source with
  | None => zero
  | Some n => orNumber n zero
  end.

Definition listed (fuelTypes : list string) (source : GenerationMixItem)
  : bool :=
  includes fuelTypes (toLowerCase (fuel source)).

(** The total shown beside the title of a [FuelList]. *)
Definition fuelListTotal (fuelTypes : list string)
    (generationMix : list GenerationMixItem) : string :=
  toFixed 2
    (fold_left (fun sum source => add sum (listedShare source))
       (filter (listed fuelTypes) generationMix) zero).

(** The rows of a [FuelList]: fuel name and its percentage. *)
Definition fuelListRows (fuelTypes : list string)
    (generationMix : list GenerationMixItem) : list (string * number) :=
  map (fun source => (fuel source, listedShare source))
    (filter (listed fuelTypes) generationMix).

(** The three lists that [Home] renders. *)
Definition homeFossilFuels : list string := ["coal"; "gas"]%string.
Definition homeRenewables : list string := ["wind"; "solar"; "hydro"]%string.
Definition homeOtherSources : list string :=
  ["nuclear"; "biomass"; "imports"; "other"]%string.

(** A mix entry as the feed gives it, for the examples. *)
Definition entry (name : string) (percent : Q) : GenerationMixItem :=
  {| fuel := name; generation := ""; time := "";
     carbonIntensityPercentage := Some (Num percent) |}.

(** The mix of the scenario in the specification. *)
Definition scenarioMix : list GenerationMixItem :=
  [entry "wind" 20; entry "gas" 30; entry "nuclear" 15; entry "coal" 5;
   entry "solar" 10; entry "hydro" 5; entry "biomass" 5; entry "other" 10].

(** A mix in which oil generates. *)
Definition oilMix : list GenerationMixItem :=
  [entry "oil" 5; entry "coal" 5; entry "gas" 30].

End Mix.

(* ================================================================== *)
(** ** The aggregation step: [fetchData] of the [Home] page *)
(* ================================================================== *)

Module Home.
Import JS.

(** [GridInfo] of [types.ts].  [price] and [emissions] hold whatever the
    feed gave, or the text ["N/A"]. *)
Record GridInfo : Type := {
  time : string;
  price : value;
  emissions : value;
  demand : string;
  generation : string;
  transfers : string
}.

(** The two [useState] cells of the component. *)
Record state : Type := {
  generationMix : list Mix.GenerationMixItem;
  gridInfo : option GridInfo
}.

Definition initialState : state :=
  {| generationMix := []; gridInfo := None |}.

(** What [axios.get] gives for each of the four endpoints in one cycle:
    the [data] of the response, or a rejection (network failure or a
    status outside 2xx). *)
Record upstream : Type := {
  energy_mix : completion (list Mix.GenerationMixItem);
  emissions_api : completion value;
  pricing_api : completion value;
  demand_api : completion value
}.

(** Computations over the component state that may throw; the state
    reached when an exception is thrown is kept. *)
Definition M (A : Type) : Type := state -> completion A * state.

Definition ret {A : Type} (a : A) : M A := fun s => (Return a, s).

Definition bind {A B : Type} (m : M A) (k : A -> M B) : M B :=
  fun s =>
    match m s with
    | (Return a, s') => k a s'
    | (Throw e, s') => (Throw e, s')
    end.

Notation "x <- m ;; k" := (bind m (fun x => k))
  (at level 61, m at next level, right associativity).

(** An awaited promise or a property read: no effect on the state. *)
Definition await {A : Type} (c : completion A) : M A := fun s => (c, s).

Definition setGenerationMix (m : list Mix.GenerationMixItem) : M unit :=
  fun s => (Return tt, {| generationMix := m; gridInfo := gridInfo s |}).

Definition setGridInfo (g : GridInfo) : M unit :=
  fun s => (Return tt, {| generationMix := generationMix s;
                          gridInfo := Some g |}).

(** [try { body } catch (error) { console.error(...) }]: the handler only
    logs, so what remains is the state the body reached. *)
Definition tryCatch (body : M unit) : state -> state :=
  fun s => snd (body s).

Fixpoint mapM {A B : Type} (f : A -> M B) (l : list A) : M (list B) :=
  match l with
  | [] => ret []
  | x :: rest => y <- f x ;; ys <- mapM f rest ;; ret (y :: ys)
  end.

(** The interconnector columns, in the order the code adds them. *)
Definition flowColumns : list string :=
  ["BRITNED_FLOW"; "IFA_FLOW"; "NEMO_FLOW"; "ELECLINK_FLOW"; "MOYLE_FLOW";
   "NSL_FLOW"; "VIKING_FLOW"]%string.

Definition notAvailable : string := "N/A".

(** [fetchData].  [clock] is [new Date().toLocaleTimeString()] as read
    when the snapshot is built. *)
Definition fetchData (up : upstream) (clock : string) : state -> state :=
  tryCatch (
    mixData <- await (energy_mix up) ;;
    _ <- setGenerationMix mixData ;;
    emissionsData <- await (emissions_api up) ;;
    pricingData <- await (pricing_api up) ;;
    demandData <- await (demand_api up) ;;
    latestDemandData <- await (getProp demandData "data") ;;
    nd <- await (getProp latestDemandData "ND") ;;
    let demand := orNumber (parseFloat nd) zero in
    flows <- mapM (fun column => await (getProp latestDemandData column))
               flowColumns ;;
    let transfers :=
      fold_left (fun acc flow => add acc flow)
        (map (fun flow => orNumber (parseFloat flow) zero) flows) zero in
    setGridInfo
      {| time := clock;
         price := or (optProp (optFirst pricingData) "price")
                     (VStr notAvailable);
         emissions :=
           or (optProp (optProp (optFirst emissionsData) "intensity")
                 "forecast")
              (VStr notAvailable);
         demand := if truthyNumber demand
                   then toFixed 2 (div1000 demand) else notAvailable;
         generation := toFixed 2 (sub (div1000 demand) (div1000 transfers));
         transfers := if truthyNumber transfers
                      then toFixed 2 (div1000 transfers) else notAvailable |}).

(** *** Vocabulary of the claims *)

(** The four feeds and the part of the snapshot each one fills. *)
Inductive source : Type := MixFeed | EmissionsFeed | PricingFeed | DemandFeed.

Inductive fieldGroup : Type :=
| MixGroup (shares : list Mix.GenerationMixItem)
| EmissionsGroup (emissions : option value)
| PricingGroup (price : option value)
| DemandGroup (demand_generation_transfers : option (string * string * string)).

Definition group (src : source) (s : state) : fieldGroup :=
  match src with
  | MixFeed => MixGroup (generationMix s)
  | EmissionsFeed => EmissionsGroup (option_map emissions (gridInfo s))
  | PricingFeed => PricingGroup (option_map price (gridInfo s))
  | DemandFeed =>
      DemandGroup
        (option_map (fun g => (demand g, generation g, transfers g))
           (gridInfo s))
  end.

Definition succeeded {A : Type} (c : completion A) : Prop :=
  match c with Return _ => True | Throw _ => False end.

Definition failed {A : Type} (c : completion A) : Prop :=
  match c with Return _ => False | Throw _ => True end.

Definition allSucceed (up : upstream) : Prop :=
  succeeded (energy_mix up) /\ succeeded (emissions_api up) /\
  succeeded (pricing_api up) /\ succeeded (demand_api up).

(** The same cycle with the fetch of [src] rejected. *)
Definition failing (src : source) (e : string) (up : upstream) : upstream :=
  match src with
  | MixFeed =>
      {| energy_mix := Throw e; emissions_api := emissions_api up;
         pricing_api := pricing_api up; demand_api := demand_api up |}
  | EmissionsFeed =>
      {| energy_mix := energy_mix up; emissions_api := Throw e;
         pricing_api := pricing_api up; demand_api := demand_api up |}
  | PricingFeed =>
      {| energy_mix := energy_mix up; emissions_api := emissions_api up;
         pricing_api := Throw e; demand_api := demand_api up |}
  | DemandFeed =>
      {| energy_mix := energy_mix up; emissions_api := emissions_api up;
         pricing_api := pricing_api up; demand_api := Throw e |}
  end.

(** A field group that carries no data. *)
Definition unknownGroup (g : fieldGroup) : Prop :=
  match g with
  | MixGroup shares => shares = []
  | EmissionsGroup e => e = None \/ e = Some (VStr notAvailable)
  | PricingGroup p => p = None \/ p = Some (VStr notAvailable)
  | DemandGroup d =>
      d = None \/ d = Some (notAvailable, notAvailable, notAvailable)
  end.

(** Two states that agree on everything but the [time] of the snapshot. *)
Definition sameButTime (a b : state) : Prop :=
  generationMix a = generationMix b /\
  match gridInfo a, gridInfo b with
  | None, None => True
  | Some g, Some h =>
      price g = price h /\ emissions g = emissions h /\
      demand g = demand h /\ generation g = generation h /\
      transfers g = transfers h
  | _, _ => False
  end.

(** A demand record with the given text in [ND] and in the flow columns. *)
Definition demandRow (nd : option string) (flows : list (string * string))
  : value :=
  VObj ((match nd with
         | Some x => [("ND"%string, VStr x)]
         | None => []
         end)
        ++ map (fun kv => (fst kv, VStr (snd kv))) flows).

Definition demandBody (row : value) : value := VObj [("data"%string, row)].

(** *** Closed form of a completed cycle *)

Definition nullish (v : value) : bool :=
  match v with
  | VUndefined | VNull => true
  | _ => false
  end.

(** [parseFloat(latestDemandData.<column>) || 0]. *)
Definition readNumber (latestDemandData : value) (column : string) : number :=
  orNumber (parseFloat (optProp latestDemandData column)) zero.

Definition demandOf (latestDemandData : value) : number :=
  readNumber latestDemandData "ND".

Definition transfersOf (latestDemandData : value) : number :=
  fold_left add (map (readNumber latestDemandData) flowColumns) zero.

Definition priceReading (pricingData : value) : value :=
  optProp (optFirst pricingData) "price".

Definition emissionsReading (emissionsData : value) : value :=
  optProp (optProp (optFirst emissionsData) "intensity") "forecast".

(** *** The claims of the specification, as it words them *)

(** Fault isolation: with one source failing and the others succeeding,
    that source's field group is Unknown and every other group is what the
    fully successful cycle would have published. *)
Definition FaultIsolation : Prop :=
  forall (up : upstream) (src : source) (e clock : string) (s : state),
    allSucceed up ->
    unknownGroup (group src (fetchData (failing src e up) clock s)) /\
    forall other, other <> src ->
      group other (fetchData (failing src e up) clock s)
      = group other (fetchData up clock s).

(** Unknown propagation for the price: a reading of unexpected shape is
    published as Unknown, and a zero reading is published as zero. *)
Definition UnknownPropagation : Prop :=
  forall (up : upstream) (clock : string) (pricingData : value) (g : GridInfo),
    pricing_api up = Return pricingData ->
    gridInfo (fetchData up clock initialState) = Some g ->
    (nullish (priceReading pricingData) = true ->
     price g = VStr notAvailable) /\
    (forall q, priceReading pricingData = VNum (Num q) -> (q == 0)%Q ->
               price g = VNum (Num q)).

(** *** Sample cycles *)

Definition sampleEmissions : value :=
  VArr [VObj [("from"%string, VStr "2024-01-01T14:00Z");
              ("to"%string, VStr "2024-01-01T14:30Z");
              ("intensity"%string,
               VObj [("forecast"%string, VNum (Num 120));
                     ("actual"%string, VNum (Num 118));
                     ("index"%string, VStr "moderate")])]].

Definition samplePricing (p : Q) : value :=
  VArr [VObj [("startTime"%string, VStr "2024-01-01T14:00:00Z");
              ("price"%string, VNum (Num p))]].

(** [ND] = 32000 MW and flows that sum to 1500 MW. *)
Definition sampleFlows : list (string * string) :=
  [("BRITNED_FLOW", "800"); ("IFA_FLOW", "1000"); ("NEMO_FLOW", "-300");
   ("ELECLINK_FLOW", "0"); ("MOYLE_FLOW", "-200"); ("NSL_FLOW", "500");
   ("VIKING_FLOW", "-300")]%string.

Definition sampleUpstream : upstream :=
  {| energy_mix := Return Mix.scenarioMix;
     emissions_api := Return sampleEmissions;
     pricing_api := Return (samplePricing 85.5);
     demand_api := Return (demandBody (demandRow (Some "32000"%string)
                                         sampleFlows)) |}.

(** The same cycle with a market price of exactly zero. *)
Definition zeroPriceUpstream : upstream :=
  {| energy_mix := Return Mix.scenarioMix;
     emissions_api := Return sampleEmissions;
     pricing_api := Return (samplePricing 0);
     demand_api := Return (demandBody (demandRow (Some "32000"%string)
                                         sampleFlows)) |}.

(** The same cycle with a demand record that has no [ND] column. *)
Definition noDemandUpstream : upstream :=
  {| energy_mix := Return Mix.scenarioMix;
     emissions_api := Return sampleEmissions;
     pricing_api := Return (samplePricing 85.5);
     demand_api := Return (demandBody (demandRow None sampleFlows)) |}.

End Home.

(* ================================================================== *)
(** ** The feed proxies: [pages/api/*.ts] *)
(* ================================================================== *)

Module Api.
Import JS.

(** A [node-fetch] response, as far as the handlers use it: the outcome of
    [response.text()] and of [response.json()]. *)
Record Response : Type := {
  text : completion string;
  json : completion value
}.

(** What the handler sends: [res.status(status).json(body)]. *)
Record reply : Type := {
  status : Z;
  body : value
}.

Definition bind {A B : Type} (c : completion A) (k : A -> completion B)
  : completion B :=
  match c with
  | Return a => k a
  | Throw e => Throw e
  end.

Notation "x <- c ;; k" := (bind c (fun x => k))
  (at level 61, c at next level, right associativity).

(** [try { body } catch (error) { handler }]. *)
Definition tryCatch {A : Type} (body : completion A) (handler : string -> A)
  : A :=
  match body with
  | Return a => a
  | Throw error => handler error
  end.

(** [throw new Error(message)] under [if (cond)]. *)
Definition throwIf (cond : bool) (message : string) : completion unit :=
  if cond then Throw message else Return tt.

Definition errorBody (message : string) : value :=
  VObj [("error"%string, VStr message)].

(** The handlers below are the part of each route that runs once the rate
    limiter has let the request through; [fetched] is the outcome of the
    [fetch] of the upstream URL. *)

(** [pages/api/emissions.ts]. *)
Definition emissionsHandler (fetched : completion Response) : reply :=
  tryCatch
    (response <- fetched ;;
     data <- json response ;;
     wrapped <- getProp data "data" ;;
     _ <- throwIf (negb (truthy wrapped)) "Missing emissions data" ;;
     Return {| status := 200; body := wrapped |})
    (fun error =>
       {| status := 500; body := errorBody "Failed to fetch emissions data" |}).

(** [pages/api/pricing.ts]. *)
Definition pricingHandler (fetched : completion Response) : reply :=
  tryCatch
    (response <- fetched ;;
     data <- json response ;;
     wrapped <- getProp data "data" ;;
     _ <- throwIf (negb (truthy wrapped)) "Missing pricing data" ;;
     Return {| status := 200; body := wrapped |})
    (fun error =>
       {| status := 500; body := errorBody "Failed to fetch pricing data" |}).

Section Demand.

(** [parse] of [csv-parse/sync] with [columns: true] and
    [skip_empty_lines: true]: the records of a CSV text, or an exception
    on a malformed one.  The library is not part of the repository. *)
Variable parse : string -> completion (list value).

(** [records[0]]. *)
Definition firstRecord (records : list value) : value :=
  match records with
  | [] => VUndefined
  | r :: _ => r
  end.

(** [pages/api/demand.ts]. *)
Definition demandHandler (fetched : completion Response) : reply :=
  tryCatch
    (response <- fetched ;;
     csvData <- text response ;;
     records <- parse csvData ;;
     Return {| status := 200;
               body := VObj [("data"%string, firstRecord records)] |})
    (fun error =>
       {| status := 500; body := errorBody "Failed to fetch demand data" |}).

End Demand.

(** A reply of the 500 class whose body is [{error: <text>}]. *)
Definition errorReply (r : reply) : Prop :=
  500 <= status r < 600 /\ exists message, body r = errorBody message.

(** *** Sample responses *)

(** A response whose body decodes to the given JSON value. *)
Definition jsonResponse (v : value) : completion Response :=
  Return {| text := Throw "body used already"; json := Return v |}.

(** A response with the given text as its body. *)
Definition textResponse (csv : string) : Response :=
  {| text := Return csv; json := Throw "Unexpected token in JSON" |}.

(** *** The CSV parser, on plain text *)

(** The pieces of a text between occurrences of a separator. *)
Fixpoint splitOn (sep : ascii) (s : string) : list string :=
  match s with
  | EmptyString => [EmptyString]
  | String c rest =>
      match splitOn sep rest with
      | piece :: more =>
          if Ascii.eqb c sep then EmptyString :: piece :: more
          else String c piece :: more
      | [] => [String c EmptyString]
      end
  end.

(** The lines of a text that are not empty ([skip_empty_lines]). *)
Definition csvLines (csv : string) : list string :=
  filter (fun line => negb (String.eqb line "")) (splitOn "010" csv).

(** One record per line under the names of the header ([columns: true]);
    a line with another number of fields than the header is an error. *)
Fixpoint csvRecords (header : list string) (rows : list string)
  : completion (list value) :=
  match rows with
  | [] => Return []
  | row :: rest =>
      let fields := splitOn "," row in
      if Nat.eqb (List.length fields) (List.length header)
      then bind (csvRecords header rest) (fun records =>
             Return (VObj (combine header (map VStr fields)) :: records))
      else Throw "Invalid Record Length"
  end.

(** What [parse] of [csv-parse/sync] does with [columns: true] and
    [skip_empty_lines: true] on a text that has no quotes and no carriage
    returns: the first line names the columns, every other line is a
    record, and a text with a header alone, or with nothing, has no
    record. *)
Definition sampleParse (csv : string) : completion (list value) :=
  match csvLines csv with
  | [] => Return []
  | header :: rows => csvRecords (splitOn "," header) rows
  end.

End Api.

(* ================================================================== *)
(** ** [roundToLastFiveMinuteMark] *)
(* ================================================================== *)

Module LastMark.
Import JSDate.

(** Two decimal digits, as the time strings print hours and minutes. *)
Definition digitChar (d : Z) : ascii := ascii_of_N (48 + Z.to_N d).

Definition pad2 (n : Z) : string :=
  String (digitChar (n / 10)) (String (digitChar (n mod 10)) EmptyString).

Section Zone.

(** The fixed local offset, and the text the engine prints after the time
    of day in [toTimeString] (offset and zone name). *)
Variable tza : Z.
Variable timeZoneString : string.

(** A [Date] object holds a time value or is invalid ([None]). *)
Definition getMinutesOf (date : option Z) : option Z :=
  option_map (getMinutes tza) date.

(** [date.setMinutes(min)]: seconds and milliseconds stay. *)
Definition setMinutesOnly (date : option Z) (min : option Z) : option Z :=
  match date, min with
  | Some tv, Some m =>
      let t := LocalTime tza tv in
      setMinutes tza tv m (SecFromTime t) (msFromTime t)
  | _, _ => None
  end.

(** [date.setSeconds(sec)]: milliseconds stay. *)
Definition setSeconds (date : option Z) (sec : Z) : option Z :=
  match date with
  | Some tv =>
      let t := LocalTime tza tv in
      TimeClip (UTC tza (MakeDate (Day t)
                  (MakeTime (HourFromTime t) (MinFromTime t) sec
                     (msFromTime t))))
  | None => None
  end.

(** [date.setMilliseconds(ms)]. *)
Definition setMilliseconds (date : option Z) (ms : Z) : option Z :=
  match date with
  | Some tv =>
      let t := LocalTime tza tv in
      TimeClip (UTC tza (MakeDate (Day t)
                  (MakeTime (HourFromTime t) (MinFromTime t) (SecFromTime t)
                     ms)))
  | None => None
  end.

(** [TimeString]: [HH:MM:SS GMT] of a local time. *)
Definition TimeString (t : Z) : string :=
  (pad2 (HourFromTime t) ++ ":" ++ pad2 (MinFromTime t) ++ ":"
   ++ pad2 (SecFromTime t) ++ " GMT")%string.

(** [date.toTimeString()]. *)
Definition toTimeString (date : option Z) : string :=
  match date with
  | Some tv => (TimeString (LocalTime tza tv) ++ timeZoneString)%string
  | None => "Invalid Date"
  end.

(** The [Date] that [roundToLastFiveMinuteMark] builds and then prints:
    [Math.floor(minutes / 5) * 5] set as the minutes, the seconds and the
    milliseconds reset. *)
Definition roundedDate (time : option Z) : option Z :=
  let date := time in
  let minutes := getMinutesOf date in
  let roundedMinutes := option_map (fun m => m / 5 * 5) minutes in
  let date := setMinutesOnly date roundedMinutes in
  let date := setSeconds date 0 in
  setMilliseconds date 0.

(** [roundToLastFiveMinuteMark(time)]. *)
Definition roundToLastFiveMinuteMark (time : option Z) : string :=
  substring 0 5 (toTimeString (roundedDate time)).

End Zone.

End LastMark.

(* ================================================================== *)
(** ** The refresh timers of the [Home] page *)
(* ================================================================== *)

Module Refresh.
Import JSDate.

(** The two callbacks the effect of [Home] hands to the timers. *)
Inductive callback : Type :=
| InitialTimeout   (* fetchData(); setInterval(fetchData, 5 * 60 * 1000) *)
| RecurringFetch.  (* fetchData *)

(** An armed timer: its handle, when it is due, its period when it
    repeats, and what it runs. *)
Record timer : Type := {
  handle : nat;
  due : Z;
  every : option Z;
  run : callback
}.

(** The page as the timers see it: the clock, the armed timers, the next
    free handle, the instants at which [fetchData] was called (latest
    first), and the handle that the cleanup of the effect clears. *)
Record page : Type := {
  now : Z;
  timers : list timer;
  nextHandle : nat;
  fetches : list Z;
  cleanup : option nat
}.

(** The delay a timer is armed with: a negative or NaN delay counts as 0. *)
Definition clampDelay (delay : option Z) : Z :=
  match delay with
  | Some d => Z.max 0 d
  | None => 0
  end.

(** The effect of [Home], run once when the page mounts at [t]:
    [fetchData()], then [setTimeout(..., getNextFiveMinuteMark())]; the
    cleanup it returns clears that timeout. *)
Definition mount (tza t : Z) : page :=
  let initialDelay := getNextFiveMinuteMark tza t t in
  {| now := t;
     timers := [{| handle := 1; due := t + clampDelay initialDelay;
                   every := None; run := InitialTimeout |}];
     nextHandle := 2;
     fetches := [t];
     cleanup := Some 1%nat |}.

(** The armed timer that is due first (the earlier armed on a tie). *)
Fixpoint nextTimer (l : list timer) : option timer :=
  match l with
  | [] => None
  | tm :: rest =>
      match nextTimer rest with
      | Some other => if due other <? due tm then Some other else Some tm
      | None => Some tm
      end
  end.

Definition disarm (h : nat) (l : list timer) : list timer :=
  filter (fun tm => negb (Nat.eqb (handle tm) h)) l.

(** The next due timer fires, at the instant it is due.  The initial
    timeout calls [fetchData] and arms the interval (the function its
    callback returns is dropped by [setTimeout]); the interval calls
    [fetchData] and stays armed one period later. *)
Definition fire (p : page) : page :=
  match nextTimer (timers p) with
  | None => p
  | Some tm =>
      match run tm with
      | InitialTimeout =>
          {| now := due tm;
             timers := disarm (handle tm) (timers p)
                       ++ [{| handle := nextHandle p;
                              due := due tm + 5 * 60 * 1000;
                              every := Some (5 * 60 * 1000);
                              run := RecurringFetch |}];
             nextHandle := S (nextHandle p);
             fetches := due tm :: fetches p;
             cleanup := cleanup p |}
      | RecurringFetch =>
          {| now := due tm;
             timers := disarm (handle tm) (timers p)
                       ++ [{| handle := handle tm;
                              due := due tm + match every tm with
                                              | Some e => e
                                              | None => 0
                                              end;
                              every := every tm;
                              run := RecurringFetch |}];
             nextHandle := nextHandle p;
             fetches := due tm :: fetches p;
             cleanup := cleanup p |}
      end
  end.

(** The page unmounts: the cleanup of the effect runs,
    [clearTimeout(initialTimeout)]. *)
Definition unmount (p : page) : page :=
  match cleanup p with
  | Some h =>
      {| now := now p; timers := disarm h (timers p);
         nextHandle := nextHandle p; fetches := fetches p;
         cleanup := None |}
  | None => p
  end.

(** [n] timers fire in a row. *)
Fixpoint fireTimes (n : nat) (p : page) : page :=
  match n with
  | O => p
  | S n' => fireTimes n' (fire p)
  end.

(** The interval of [Home], armed under handle [h] and due at [d]. *)
Definition recurring (h : nat) (d : Z) : timer :=
  {| handle := h; due := d; every := Some (5 * 60 * 1000);
     run := RecurringFetch |}.

(** The first instant after [t] whose local time is a multiple of the
    period. *)
Definition nextMark (tza t : Z) : Z :=
  period * ((t + tza) / period + 1) - tza.

End Refresh.

(* ================================================================== *)
(** ** [DarkMode] *)
(* ================================================================== *)

Module DarkMode.

(** The state of the component and the class list of [document.body]. *)
Record view : Type := {
  isDarkMode : bool;
  classList : list string
}.

(** [classList.add(c)]: a class already there is not added again. *)
Definition classAdd (c : string) (l : list string) : list string :=
  if existsb (String.eqb c) l then l else l ++ [c].

(** [classList.remove(c)]. *)
Definition classRemove (c : string) (l : list string) : list string :=
  filter (fun x => negb (String.eqb x c)) l.

(** The effect that follows a render in which [isDarkMode] is new. *)
Definition effect (v : view) : view :=
  {| isDarkMode := isDarkMode v;
     classList := if isDarkMode v
                  then classAdd "dark" (classList v)
                  else classRemove "dark" (classList v) |}.

(** First render, over a body that has the classes [body]. *)
Definition mount (body : list string) : view :=
  effect {| isDarkMode := false; classList := body |}.

(** [toggleDarkMode], the click handler, and the effect of the render it
    causes. *)
Definition toggleDarkMode (v : view) : view :=
  effect {| isDarkMode := negb (isDarkMode v); classList := classList v |}.

(** The fill of the icon. *)
Definition iconFill (v : view) : string :=
  if isDarkMode v then "fill-white" else "fill-black".

Fixpoint clicks (n : nat) (v : view) : view :=
  match n with
  | O => v
  | S n' => clicks n' (toggleDarkMode v)
  end.

End DarkMode.

(* ================================================================== *)
(** ** [GridInfoComponent] and the boxes of [Home] *)
(* ================================================================== *)

Module GridInfoView.
Import JS.

(** [String.prototype.includes]. *)
Fixpoint includesText (needle s : string) : bool :=
  prefix needle s ||
  match s with
  | EmptyString => false
  | String _ s' => includesText needle s'
  end.

(** What the component shows for one item:
    [item.value.includes("undefined") ? "fetching..." : item.value]. *)
Definition shown (value : string) : string :=
  if includesText "undefined" value then "fetching..." else value.

Definition GridInfoComponent (data : list (string * string))
  : list (string * string) :=
  map (fun item => (fst item, shown (snd item))) data.

(** A field of [gridInfo?.] inside a template literal: [undefined] prints
    as that word. *)
Definition template (field : option string) : string :=
  match field with
  | Some text => text
  | None => "undefined"
  end.

(** The second box of [Home]: demand, generation and transfers. *)
Definition powerBox (gridInfo : option Home.GridInfo)
  : list (string * string) :=
  GridInfoComponent
    [("Demand", template (option_map Home.demand gridInfo) ++ "GW");
     ("Generation", template (option_map Home.generation gridInfo) ++ "GW");
     ("Transfers", template (option_map Home.transfers gridInfo) ++ "GW")
    ]%string.

(** Whether the character occurs in the text. *)
Fixpoint hasChar (c : ascii) (s : string) : bool :=
  match s with
  | EmptyString => false
  | String x s' => Ascii.eqb x c || hasChar c s'
  end.

End GridInfoView.

(* ================================================================== *)
(** ** From the proxies to the page *)
(* ================================================================== *)

Module Pipeline.
Import JS Api.

(** [pages/api/grid-info.ts]: the decoded body is sent as it is. *)
Definition gridInfoHandler (fetched : completion Response) : reply :=
  tryCatch
    (bind fetched (fun response =>
     bind (json response) (fun data =>
     Return {| status := 200; body := data |})))
    (fun error =>
       {| status := 500; body := errorBody "Failed to fetch grid data" |}).

(** What [JSON.parse] reads back from the [JSON.stringify] of a value: a
    property that is [undefined] is dropped, an [undefined] array item
    and a number that is not finite become [null]. *)
Fixpoint wire (v : value) : value :=
  match v with
  | VUndefined => VNull
  | VNum NaN | VNum (Inf _) => VNull
  | VArr items => VArr (map wire items)
  | VObj props =>
      VObj ((fix keep (ps : list (string * value)) : list (string * value) :=
               match ps with
               | [] => []
               | (k, VUndefined) :: rest => keep rest
               | (k, x) :: rest => (k, wire x) :: keep rest
               end) props)
  | _ => v
  end.

(** [axios.get] on a route of the site: the promise resolves with the
    decoded body when the status is within 200..299 and is rejected
    otherwise. *)
Definition axiosGet (r : reply) : completion value :=
  if (200 <=? status r) && (status r <? 300)
  then Return (wire (body r))
  else Throw ("Request failed with status code "
              ++ DecimalString.NilZero.string_of_uint
                   (N.to_uint (Z.to_N (status r)))).

Section Cycle.

Variable parse : string -> completion (list value).

(** The inputs of one cycle of the page, from what the three proxies of
    the repository get upstream; the mix proxy is not in the sources, its
    answer is taken as it comes. *)
Definition cycleInputs
    (mix : completion (list Mix.GenerationMixItem))
    (emissionsFetched pricingFetched demandFetched : completion Response)
  : Home.upstream :=
  {| Home.energy_mix := mix;
     Home.emissions_api := axiosGet (emissionsHandler emissionsFetched);
     Home.pricing_api := axiosGet (pricingHandler pricingFetched);
     Home.demand_api := axiosGet (demandHandler parse demandFetched) |}.

End Cycle.

End Pipeline.

(* ================================================================== *)
(** ** More sample cycles *)
(* ================================================================== *)

Module HomeSamples.
Import JS Home.

(** A cycle whose flows cancel out. *)
Definition cancellingFlows : list (string * string) :=
  [("IFA_FLOW", "500"); ("NSL_FLOW", "-500")]%string.

Definition cancellingFlowsUpstream : upstream :=
  {| energy_mix := Return Mix.scenarioMix;
     emissions_api := Return sampleEmissions;
     pricing_api := Return (samplePricing 85.5);
     demand_api := Return (demandBody (demandRow (Some "32000"%string)
                                         cancellingFlows)) |}.

(** A cycle whose demand answer is the empty object. *)
Definition emptyAnswerUpstream : upstream :=
  {| energy_mix := Return Mix.scenarioMix;
     emissions_api := Return sampleEmissions;
     pricing_api := Return (samplePricing 85.5);
     demand_api := Return (VObj []) |}.

(** The sample record with the other columns of the feed around it. *)
Definition fullRow : value :=
  VObj ([("SETTLEMENT_DATE"%string, VStr "2024-01-01");
         ("SETTLEMENT_PERIOD"%string, VStr "29");
         ("ND"%string, VStr "32000");
         ("TSD"%string, VStr "33500");
         ("EMBEDDED_WIND_GENERATION"%string, VStr "2100")]
        ++ map (fun kv => (fst kv, VStr (snd kv))) sampleFlows).

Definition fullRowUpstream : upstream :=
  {| energy_mix := Return Mix.scenarioMix;
     emissions_api := Return sampleEmissions;
     pricing_api := Return (samplePricing 85.5);
     demand_api := Return (demandBody fullRow) |}.

(** What the sample cycle publishes. *)
Definition sampleSnapshot : GridInfo :=
  {| time := "14:05:00"; price := VNum (Num 85.5);
     emissions := VNum (Num 120); demand := "32.00";
     generation := "30.50"; transfers := "1.50" |}.

End HomeSamples.

(* ================================================================== *)
(** ** [getNextFiveMinuteMark] in a zone whose offset changes *)
(* ================================================================== *)

Module Zoned.
Import JSDate.

Section Zone.

(** [LocalTZA(t, isUTC)] of ECMAScript: the offset of local time in
    milliseconds, at the instant [t] when [isUTC] is [true], and for the
    local time [t] when it is [false]; a local time that occurs twice, or
    not at all, is read with the offset before the transition. *)
Variable LocalTZA : Z -> bool -> Z.

Definition LocalTime (t : Z) : Z := t + LocalTZA t true.
Definition UTC (t : Z) : Z := t - LocalTZA t false.

Definition getMinutes (tv : Z) : Z := MinFromTime (LocalTime tv).

Definition setMinutes (tv min sec ms : Z) : option Z :=
  let t := LocalTime tv in
  let date := MakeDate (Day t) (MakeTime (HourFromTime t) min sec ms) in
  TimeClip (UTC date).

(** [getNextFiveMinuteMark], with the two readings of the clock. *)
Definition getNextFiveMinuteMark (t_new t_now : Z) : option Z :=
  let minutes := getMinutes t_new in
  let remaining := 5 - minutes mod 5 in
  match setMinutes t_new (minutes + remaining) 0 0 with
  | Some adjusted => Some (adjusted - t_now)
  | None => None
  end.

(** A wall-clock instant on the five-minute grid. *)
Definition onFiveMinuteMark (tv : Z) : Prop :=
  let t := LocalTime tv in
  MinFromTime t mod 5 = 0 /\ SecFromTime t = 0 /\ msFromTime t = 0.

End Zone.

(** A zone that keeps one offset. *)
Definition fixedZone (tza : Z) : Z -> bool -> Z := fun _ _ => tza.

(** Summer time in the United Kingdom in 2024 began at 01:00 UTC on
    31 March and ended at 01:00 UTC on 27 October. *)
Definition bstBegins : Z := 1711846800000.
Definition bstEnds : Z := 1729990800000.

(** Europe/London around 2024: one hour ahead of UTC during summer time.
    The local hour from 01:00 that summer time skips in March is read
    with the winter offset, and the local hour from 01:00 that occurs
    twice in October with the summer offset. *)
Definition europeLondon (t : Z) (isUTC : bool) : Z :=
  if isUTC then
    if (bstBegins <=? t) && (t <? bstEnds) then msPerHour else 0
  else
    if (bstBegins + msPerHour <=? t) && (t <? bstEnds + msPerHour)
    then msPerHour else 0.

(** 01:57:00 summer time and 01:32:00 winter time on 27 October 2024,
    and 01:00:00 winter time, the instant the clocks went back. *)
Definition oct27_0157_BST : Z := 1729990620000.
Definition oct27_0132_GMT : Z := 1729992720000.
Definition oct27_0100_GMT : Z := 1729990800000.

End Zoned.

(* ================================================================== *)
(** ** [GenerationPieChart] over binary64 numbers *)
(* ================================================================== *)

Module Chart64.
Import Stdlib.Floats.PrimFloat.

Local Open Scope float_scope.

(** [FuelSource], with the percentage as the IEEE-754 double it is. *)
Record FuelSource : Type := {
  fuel : string;
  carbonIntensityPercentage : option float
}.

(** [parseFloat(fuel.carbonIntensityPercentage?.toString() || "0")]: a
    double prints to a text that parses back to it, except that the
    negative zero prints as [0]. *)
Definition share (f : FuelSource) : float :=
  match carbonIntensityPercentage f with
  | None => 0
  | Some x => if PrimFloat.eqb x 0 then 0 else x
  end.

Definition fuelData (generationMix : list FuelSource) : list float :=
  map share generationMix.

Definition sumShares (acc : float) (f : FuelSource) : float := acc + share f.

Definition renewables (generationMix : list FuelSource) : float :=
  fold_left sumShares
    (filter (fun f => Mix.includes ["wind"; "solar"; "hydro"]%string (fuel f))
       generationMix) 0.

Definition fossilFuels (generationMix : list FuelSource) : float :=
  fold_left sumShares
    (filter (fun f => Mix.includes ["coal"; "gas"; "oil"]%string (fuel f))
       generationMix) 0.

Definition others (generationMix : list FuelSource) : float :=
  fold_left sumShares
    (filter (fun f =>
               negb (Mix.includes
                       ["wind"; "solar"; "hydro"; "coal"; "gas"; "oil"]%string
                       (fuel f)))
       generationMix) 0.

(** The sum of the percentages of the input, in the order of the input. *)
Definition total (generationMix : list FuelSource) : float :=
  fold_left (fun acc x => acc + x) (fuelData generationMix) 0.


Definition source (name : string) (percent : float) : FuelSource :=
  {| fuel := name; carbonIntensityPercentage := Some percent |}.

(** Gas 0.2, nuclear 0.3 and wind 0.1. *)
Definition tenthsMix : list FuelSource :=
  [source "gas" 0.2; source "nuclear" 0.3; source "wind" 0.1].

End Chart64.

(* ================================================================== *)
(** ** Whole numbers *)
(* ================================================================== *)

Module Whole.
Import JS.

(** The largest magnitude up to which every whole number is a double, so
    that sums of whole numbers within it are exact in the code as they
    are here. *)
Definition maxSafe : Z := 2 ^ 53.

Definition whole (z : Z) : number := Num (inject_Z z).


Definition sumOf (zs : list Z) : Z := fold_left Z.add zs 0.

Definition sumAbs (zs : list Z) : Z := fold_left Z.add (map Z.abs zs) 0.

(** The flow of each column under a table of whole megawatts; a column
    the table does not have flows nothing. *)
Definition flowTable (flows : list (string * Z)) (column : string) : Z :=
  match find (fun kv => String.eqb (fst kv) column) flows with
  | Some kv => snd kv
  | None => 0
  end.

(** [Home.sampleFlows] and [HomeSamples.cancellingFlows], as numbers. *)
Definition sampleFlow : string -> Z :=
  flowTable [("BRITNED_FLOW", 800); ("IFA_FLOW", 1000); ("NEMO_FLOW", -300);
             ("ELECLINK_FLOW", 0); ("MOYLE_FLOW", -200); ("NSL_FLOW", 500);
             ("VIKING_FLOW", -300)]%string.

Definition cancellingFlow : string -> Z :=
  flowTable [("IFA_FLOW", 500); ("NSL_FLOW", -500)]%string.

End Whole.

(* ================================================================== *)
(** ** Claims of the specification on Unknown fields and on the proxies *)
(* ================================================================== *)

Module Stated.
Import JS.

(** Unknown propagation, first half, for the price: a pricing answer
    whose first entry has no number as its price is published as
    Unknown. *)
Definition UnknownOnUnexpectedShape : Prop :=
  forall (up : Home.upstream) (clock : string) (pricingData : value)
         (g : Home.GridInfo),
    Home.pricing_api up = Return pricingData ->
    Home.gridInfo (Home.fetchData up clock Home.initialState) = Some g ->
    (forall n, Home.priceReading pricingData <> VNum n) ->
    Home.price g = VStr Home.notAvailable.

(** Unknown propagation, second half, for the price: a price of zero is
    published as zero. *)
Definition ZeroPublishedAsZero : Prop :=
  forall (up : Home.upstream) (clock : string) (pricingData : value)
         (g : Home.GridInfo),
    Home.pricing_api up = Return pricingData ->
    Home.gridInfo (Home.fetchData up clock Home.initialState) = Some g ->
    Home.priceReading pricingData = VNum (Num 0) ->
    Home.price g = VNum (Num 0).

(** The sample cycle with a price that is a text. *)
Definition textPriceUpstream : Home.upstream :=
  {| Home.energy_mix := Return Mix.scenarioMix;
     Home.emissions_api := Return Home.sampleEmissions;
     Home.pricing_api :=
       Return (VArr [VObj [("startTime"%string, VStr "2024-01-01T14:00:00Z");
                           ("price"%string, VStr "abc")]]);
     Home.demand_api :=
       Return (Home.demandBody (Home.demandRow (Some "32000"%string)
                                  Home.sampleFlows)) |}.

(** What [fetch] resolves with: the status of the upstream answer and its
    body.  [node-fetch] resolves for every status; only a failure of the
    transport rejects. *)
Record HttpResponse : Type := {
  httpStatus : Z;
  httpBody : Api.Response
}.

(** The handlers read the body of the response and never its status. *)
Definition received (got : completion HttpResponse)
  : completion Api.Response :=
  match got with
  | Return h => Return (httpBody h)
  | Throw e => Throw e
  end.

(** The demand route on what the upstream gave. *)
Definition demandRoute (got : completion HttpResponse) : Api.reply :=
  Api.demandHandler Api.sampleParse (received got).

(** A failure of the Source Client of the demand feed: no response, a
    response with a status outside 200..299, a body that cannot be read,
    or a text that the parser refuses. *)
Definition demandSourceFails (got : completion HttpResponse) : Prop :=
  match got with
  | Throw _ => True
  | Return h =>
      ~ (200 <= httpStatus h < 300) \/
      match Api.text (httpBody h) with
      | Throw _ => True
      | Return csv => Home.failed (Api.sampleParse csv)
      end
  end.

(** The error surface as the specification states it, for the demand
    route: every failure of the Source Client is answered with a status
    of the 500 class and [{error: <text>}]. *)
Definition ProxyErrorSurface : Prop :=
  forall got : completion HttpResponse,
    demandSourceFails got ->
    500 <= Api.status (demandRoute got) < 600 /\
    exists message,
      Api.body (demandRoute got) = VObj [("error"%string, VStr message)].

(** An upstream that answers 503 with a line of plain text. *)
Definition unavailablePage : completion HttpResponse :=
  Return {| httpStatus := 503;
            httpBody := Api.textResponse "Service Unavailable" |}.

End Stated.

(* ================================================================== *)
(** ** Theorems: scheduler *)
(* ================================================================== *)

Module JSDateFacts.
Import JSDate.

Ltac unfold_date :=
  unfold getNextFiveMinuteMark, setMinutes, getMinutes, onFiveMinuteMark,
    LocalTime, UTC, MakeDate, MakeTime, Day, HourFromTime, MinFromTime,
    SecFromTime, msFromTime, maxTimeValue,
    msPerDay, msPerHour, msPerMinute, msPerSecond in *;
  change period with 300000 in *.

Lemma Some_eq {A : Type} (x y : A) : Some x = Some y -> x = y.
Proof. intros H. injection H. exact (fun e => e). Qed.

(** Being on the grid is divisibility of the local time by the period. *)
Lemma onFiveMinuteMark_iff tza tv :
  onFiveMinuteMark tza tv <-> (tv + tza) mod period = 0.
Proof.
  unfold_date. cbv zeta. Z.div_mod_to_equations. lia.
Qed.

(** The date that [setMinutes] builds is the first multiple of the period
    strictly above the local time it started from. *)
Lemma adjusted_local_time L :
  MakeDate (Day L)
    (MakeTime (HourFromTime L)
       (MinFromTime L + (5 - MinFromTime L mod 5)) 0 0)
  = period * (L / period + 1).
Proof.
  unfold_date. Z.div_mod_to_equations. lia.
Qed.

(** Closed form of the result, for two arbitrary clock readings. *)
Lemma getNextFiveMinuteMark_eq tza t_new t_now :
  Z.abs t_new <= maxTimeValue - period ->
  getNextFiveMinuteMark tza t_new t_now
  = Some (period - (t_new + tza) mod period + (t_new - t_now)).
Proof.
  intros Hb.
  unfold getNextFiveMinuteMark, setMinutes, getMinutes.
  rewrite adjusted_local_time.
  unfold TimeClip, UTC, LocalTime.
  pose proof (Z.mod_pos_bound (t_new + tza) period ltac:(reflexivity)) as Hm.
  pose proof (Z.div_mod (t_new + tza) period ltac:(discriminate)) as Hd.
  destruct (Z.leb_spec
              (Z.abs (period * ((t_new + tza) / period + 1) - tza))
              maxTimeValue) as [_ | Hbad].
  - f_equal. lia.
  - exfalso. change period with 300000 in *; unfold maxTimeValue in *. lia.
Qed.

(** With a later second reading the delay shrinks by the time elapsed, so
    it is negative exactly when the mark was passed in between. *)
Lemma getNextFiveMinuteMark_two_readings tza t_new t_now d :
  Z.abs t_new <= maxTimeValue - period ->
  getNextFiveMinuteMark tza t_new t_now = Some d ->
  onFiveMinuteMark tza (t_now + d) /\ t_new < t_now + d <= t_new + period.
Proof.
  intros Hb H. rewrite getNextFiveMinuteMark_eq in H by exact Hb.
  apply Some_eq in H. subst d.
  rewrite onFiveMinuteMark_iff.
  pose proof (Z.mod_pos_bound (t_new + tza) period ltac:(reflexivity)).
  change period with 300000 in *.
  split; [| lia].
  Z.div_mod_to_equations. lia.
Qed.

(** In a zone of fixed offset, called at the instant [now] (both clock
    readings observe it), [getNextFiveMinuteMark] returns a delay that is
    not negative, [now + delay] is a wall-clock instant whose minute is
    divisible by five with seconds and milliseconds zero, and no such
    instant lies strictly between [now] and [now + delay].  At 14:03:00.000
    wall-clock time the delay is 120000 ms and the trigger is 14:05. *)
Theorem getNextFiveMinuteMark_aligned (tza now : Z)
    (Hrange : Z.abs now <= maxTimeValue - period) :
  exists delay,
    getNextFiveMinuteMark tza now now = Some delay /\
    0 <= delay /\
    onFiveMinuteMark tza (now + delay) /\
    (forall t, now < t < now + delay -> ~ onFiveMinuteMark tza t) /\
    (HourFromTime (LocalTime tza now) = 14 ->
     MinFromTime (LocalTime tza now) = 3 ->
     SecFromTime (LocalTime tza now) = 0 ->
     msFromTime (LocalTime tza now) = 0 ->
     delay = 120 * msPerSecond /\
     HourFromTime (LocalTime tza (now + delay)) = 14 /\
     MinFromTime (LocalTime tza (now + delay)) = 5).
Proof.
  eexists. split; [apply getNextFiveMinuteMark_eq; exact Hrange |].
  pose proof (Z.mod_pos_bound (now + tza) period ltac:(reflexivity)) as Hm.
  split; [change period with 300000 in *; lia |].
  split.
  { rewrite onFiveMinuteMark_iff. change period with 300000 in *.
    Z.div_mod_to_equations. lia. }
  split.
  { intros t Ht. rewrite onFiveMinuteMark_iff. change period with 300000 in *.
    Z.div_mod_to_equations. lia. }
  intros Hh Hmin Hs Hms. unfold_date.
  Z.div_mod_to_equations. lia.
Qed.

Lemma getNextFiveMinuteMark_aligned_witness :
  Z.abs 1704117780000 <= maxTimeValue - period /\
  exists delay,
    getNextFiveMinuteMark 0 1704117780000 1704117780000 = Some delay /\
    0 <= delay /\
    onFiveMinuteMark 0 (1704117780000 + delay) /\
    (forall t, 1704117780000 < t < 1704117780000 + delay ->
               ~ onFiveMinuteMark 0 t) /\
    (HourFromTime (LocalTime 0 1704117780000) = 14 ->
     MinFromTime (LocalTime 0 1704117780000) = 3 ->
     SecFromTime (LocalTime 0 1704117780000) = 0 ->
     msFromTime (LocalTime 0 1704117780000) = 0 ->
     delay = 120 * msPerSecond /\
     HourFromTime (LocalTime 0 (1704117780000 + delay)) = 14 /\
     MinFromTime (LocalTime 0 (1704117780000 + delay)) = 5).
Proof.
  split; [vm_compute; discriminate |].
  apply (getNextFiveMinuteMark_aligned 0 1704117780000).
  vm_compute; discriminate.
Defined.

(** The 14:03:00 scenario, evaluated: 2024-01-01T14:03:00Z in UTC, and the
    same wall-clock time in a zone one hour east of Greenwich. *)
Example getNextFiveMinuteMark_1403 :
  HourFromTime (LocalTime 0 1704117780000) = 14 /\
  MinFromTime (LocalTime 0 1704117780000) = 3 /\
  getNextFiveMinuteMark 0 1704117780000 1704117780000 = Some 120000 /\
  getNextFiveMinuteMark 3600000 1704114180000 1704114180000 = Some 120000.
Proof. repeat split; reflexivity. Qed.

(** In a zone of fixed offset, called at the instant [now] (both clock
    readings observe it), [getNextFiveMinuteMark] returns a strictly
    positive delay of at most one period (300000 ms); called exactly on a
    five-minute mark it returns the full period, never 0. *)
Theorem getNextFiveMinuteMark_boundary (tza now : Z)
    (Hrange : Z.abs now <= maxTimeValue - period) :
  exists delay,
    getNextFiveMinuteMark tza now now = Some delay /\
    0 < delay <= 300000 /\
    (onFiveMinuteMark tza now -> delay = 300000).
Proof.
  eexists. split; [apply getNextFiveMinuteMark_eq; exact Hrange |].
  pose proof (Z.mod_pos_bound (now + tza) period ltac:(reflexivity)) as Hm.
  rewrite onFiveMinuteMark_iff. change period with 300000 in *. lia.
Qed.

Lemma getNextFiveMinuteMark_boundary_witness :
  Z.abs 1704117900000 <= maxTimeValue - period /\
  exists delay,
    getNextFiveMinuteMark 0 1704117900000 1704117900000 = Some delay /\
    0 < delay <= 300000 /\
    (onFiveMinuteMark 0 1704117900000 -> delay = 300000).
Proof.
  split; [vm_compute; discriminate |].
  apply (getNextFiveMinuteMark_boundary 0 1704117900000).
  vm_compute; discriminate.
Defined.

(** On the mark 14:05:00.000 the code waits a whole period. *)
Example getNextFiveMinuteMark_1405 :
  MinFromTime (LocalTime 0 1704117900000) = 5 /\
  SecFromTime (LocalTime 0 1704117900000) = 0 /\
  getNextFiveMinuteMark 0 1704117900000 1704117900000 = Some 300000.
Proof. repeat split; reflexivity. Qed.

End JSDateFacts.

(* ================================================================== *)
(** ** Theorems: numbers *)
(* ================================================================== *)

Module JSFacts.
Import JS.
Local Open Scope string_scope.

Lemma num_eq_refl x : num_eq x x.
Proof. destruct x; simpl; auto. reflexivity. Qed.

Lemma num_eq_sym x y : num_eq x y -> num_eq y x.
Proof. destruct x, y; simpl; auto. intros H; symmetry; exact H. Qed.

Lemma num_eq_trans x y z : num_eq x y -> num_eq y z -> num_eq x z.
Proof.
  destruct x, y, z; simpl; try tauto; try congruence.
  intros H1 H2. rewrite H1. exact H2.
Qed.

#[export] Instance num_eq_Equivalence : Equivalence num_eq.
Proof.
  split; [exact num_eq_refl | exact num_eq_sym | exact num_eq_trans].
Qed.

#[export] Instance add_Proper : Proper (num_eq ==> num_eq ==> num_eq) add.
Proof.
  intros x x' Hx y y' Hy.
  destruct x as [| a | p], x' as [| a' | p']; simpl in Hx; try contradiction;
    destruct y as [| b | q], y' as [| b' | q']; simpl in Hy;
    try contradiction; subst; simpl; auto.
  - destruct (Bool.eqb a' b'); simpl; auto.
  - rewrite Hx, Hy. reflexivity.
Qed.




(** [roundFixed] picks the nearest multiple of [10^-f], the upper one on a
    tie. *)
Lemma roundFixed_nearest (f : nat) (x : Q) :
  (inject_Z (roundFixed f x) - (1 # 2)
   <= x * inject_Z (10 ^ Z.of_nat f)
   < inject_Z (roundFixed f x) + (1 # 2))%Q.
Proof.
  unfold roundFixed.
  generalize (x * inject_Z (10 ^ Z.of_nat f))%Q. intros t.
  pose proof (Qfloor_le (t + (1 # 2))) as Hlo.
  pose proof (Qlt_floor (t + (1 # 2))) as Hhi.
  rewrite inject_Z_plus in Hhi.
  change (inject_Z 1) with 1%Q in Hhi.
  generalize dependent (inject_Z (Qfloor (t + (1 # 2)))). intros n Hlo Hhi.
  lra.
Qed.

Example parseFloat_examples :
  parseFloatString "32000" = Num 32000 /\
  parseFloatString "  -300" = Num (-300) /\
  parseFloatString "1500.5 MW" = Num 1500.5 /\
  parseFloatString ".5e1" = Num 5 /\
  parseFloatString "" = NaN /\
  parseFloatString "n/a" = NaN /\
  parseFloatString "-Infinity" = Inf true /\
  parseFloat VUndefined = NaN /\
  parseFloat (VArr [VStr "7"; VStr "8"]) = Num 7.
Proof. repeat split; reflexivity. Qed.

Example toFixed_examples :
  toFixed 2 (Num 32) = "32.00" /\
  toFixed 2 (Num 30.5) = "30.50" /\
  toFixed 2 (Num 0.005) = "0.01" /\
  toFixed 2 (Num (-1.5)) = "-1.50" /\
  toFixed 2 (Num (-0.001)) = "-0.00" /\
  toFixed 2 NaN = "NaN" /\
  toFixed 0 (Num 2.5) = "3".
Proof. repeat split; reflexivity. Qed.

End JSFacts.

(* ================================================================== *)
(** ** Theorems: category projections *)
(* ================================================================== *)

Module MixFacts.
Import JS Mix JSFacts.
Local Open Scope string_scope.






(** Membership of the three categories of the doughnut chart. *)
Lemma pie_chart_membership f :
  (isRenewable f = true <-> In (fuel f) ["wind"; "solar"; "hydro"]) /\
  (isFossilFuel f = true <-> In (fuel f) ["coal"; "gas"; "oil"]) /\
  (isOther f = true <->
   ~ In (fuel f) ["wind"; "solar"; "hydro"; "coal"; "gas"; "oil"]).
Proof.
  assert (Hin : forall xs x, includes xs x = true <-> In x xs).
  { intros xs x. unfold includes. rewrite existsb_exists. split.
    - intros (y & Hy & E). apply String.eqb_eq in E. subst y. exact Hy.
    - intros Hx. exists x. split; [exact Hx | apply String.eqb_refl]. }
  unfold isRenewable, isFossilFuel, isOther.
  repeat split; try (apply Hin).
  - intros H Hx. apply Hin in Hx. rewrite Hx in H. discriminate H.
  - intros H. destruct (includes _ (fuel f)) eqn:E; [| reflexivity].
    apply Hin in E. contradiction.
Qed.

(** The scenario of the specification, in the chart and in the lists. *)
Example scenario_categories :
  aggregateData scenarioMix = [Num 35; Num 35; Num 30] /\
  fuelListTotal homeRenewables scenarioMix = "35.00" /\
  fuelListTotal homeFossilFuels scenarioMix = "35.00" /\
  fuelListTotal homeOtherSources scenarioMix = "30.00".
Proof. repeat split; reflexivity. Qed.

(** C6.  On a mix in which oil generates 5, coal 5 and gas 30, the chart
    counts oil under Fossil Fuels (40) while the Fossil Fuels list of
    [Home] leaves it out (35.00); oil is in none of the three lists. *)
Theorem fossil_fuels_list_omits_oil :
  fossilFuels oilMix = Num 40 /\
  fuelListTotal homeFossilFuels oilMix = "35.00" /\
  fuelListRows homeFossilFuels oilMix = [("coal", Num 5); ("gas", Num 30)] /\
  listed homeFossilFuels (entry "oil" 5) = false /\
  listed homeRenewables (entry "oil" 5) = false /\
  listed homeOtherSources (entry "oil" 5) = false.
Proof. repeat split; reflexivity. Qed.

End MixFacts.

(* ================================================================== *)
(** ** Theorems: the aggregation step *)
(* ================================================================== *)

Module HomeFacts.
Import JS Home.
Local Open Scope string_scope.

Lemma getProp_optProp v name :
  nullish v = false -> getProp v name = Return (optProp v name).
Proof. destruct v; simpl; intros H; try discriminate H; reflexivity. Qed.

Lemma getProp_nullish v name :
  nullish v = true -> exists e, getProp v name = Throw e.
Proof. destruct v; simpl; intros H; try discriminate H; eexists; reflexivity. Qed.

(** What a cycle publishes when every fetch succeeds and the demand
    response wraps a record. *)
Lemma fetchData_complete up clock s m em p d latest :
  energy_mix up = Return m ->
  emissions_api up = Return em ->
  pricing_api up = Return p ->
  demand_api up = Return d ->
  getProp d "data" = Return latest ->
  nullish latest = false ->
  fetchData up clock s =
  {| generationMix := m;
     gridInfo := Some
       {| time := clock;
          price := or (priceReading p) (VStr notAvailable);
          emissions := or (emissionsReading em) (VStr notAvailable);
          demand := if truthyNumber (demandOf latest)
                    then toFixed 2 (div1000 (demandOf latest))
                    else notAvailable;
          generation := toFixed 2 (sub (div1000 (demandOf latest))
                                       (div1000 (transfersOf latest)));
          transfers := if truthyNumber (transfersOf latest)
                       then toFixed 2 (div1000 (transfersOf latest))
                       else notAvailable |} |}.
Proof.
  intros Hm He Hp Hd Hl Hn.
  unfold fetchData, tryCatch, bind, await, setGenerationMix, setGridInfo.
  rewrite Hm, He, Hp, Hd, Hl.
  unfold flowColumns, mapM, bind, await, ret.
  rewrite !(getProp_optProp latest) by exact Hn.
  reflexivity.
Qed.

(** A failing fetch ends the cycle where it stands. *)
Lemma fetchData_failed up clock s :
  failed (energy_mix up) \/ failed (emissions_api up) \/
  failed (pricing_api up) \/ failed (demand_api up) ->
  gridInfo (fetchData up clock s) = gridInfo s /\
  generationMix (fetchData up clock s)
  = match energy_mix up with
    | Return m => m
    | Throw _ => generationMix s
    end.
Proof.
  intros H.
  unfold fetchData, tryCatch, bind, await, setGenerationMix.
  destruct (energy_mix up) as [m | e1]; simpl; [| split; reflexivity].
  destruct (emissions_api up) as [em | e2]; simpl; [| split; reflexivity].
  destruct (pricing_api up) as [p | e3]; simpl; [| split; reflexivity].
  destruct (demand_api up) as [d | e4]; simpl; [| split; reflexivity].
  simpl in H. tauto.
Qed.

(** Either a cycle completes, and then what it publishes depends on the
    clock through [time] alone and not on the state before; or it is
    abandoned, and then [gridInfo] is left as it was. *)
Lemma fetchData_cases up :
  (exists m p e d g t,
     forall clock s,
       fetchData up clock s =
       {| generationMix := m;
          gridInfo := Some {| time := clock; price := p; emissions := e;
                              demand := d; generation := g;
                              transfers := t |} |}) \/
  (forall clock s,
     gridInfo (fetchData up clock s) = gridInfo s /\
     generationMix (fetchData up clock s)
     = match energy_mix up with
       | Return m => m
       | Throw _ => generationMix s
       end).
Proof.
  pose proof (fetchData_failed up) as Hfail.
  destruct (energy_mix up) as [m | e1] eqn:Hm;
    [| right; intros; apply Hfail; simpl; tauto].
  destruct (emissions_api up) as [em | e2] eqn:He;
    [| right; intros; apply Hfail; simpl; tauto].
  destruct (pricing_api up) as [p | e3] eqn:Hp;
    [| right; intros; apply Hfail; simpl; tauto].
  destruct (demand_api up) as [d | e4] eqn:Hd;
    [| right; intros; apply Hfail; simpl; tauto].
  clear Hfail.
  destruct (getProp d "data") as [latest | e5] eqn:Hl.
  - destruct (nullish latest) eqn:Hn.
    + right. intros clock s.
      destruct (getProp_nullish latest "ND" Hn) as [e6 Hnd].
      unfold fetchData, tryCatch, bind, await, setGenerationMix.
      rewrite Hm, He, Hp, Hd, Hl, Hnd. split; reflexivity.
    + left. do 6 eexists. intros clock s.
      apply (fetchData_complete up clock s m em p d latest); assumption.
  - right. intros clock s.
    unfold fetchData, tryCatch, bind, await, setGenerationMix.
    rewrite Hm, He, Hp, Hd, Hl. split; reflexivity.
Qed.

(** *** C1: fault isolation *)

(** C1, refuted as stated: with the pricing fetch rejected and the other
    three feeds answering, no snapshot is published at all, so the
    emissions group is not what the successful cycle would have shown. *)
Lemma fault_isolation_fails : ~ FaultIsolation.
Proof.
  intros H.
  destruct (H sampleUpstream PricingFeed "Request failed with status code 500"
              "14:05:00" initialState) as [_ Hothers].
  { repeat split. }
  specialize (Hothers EmissionsFeed ltac:(discriminate)).
  vm_compute in Hothers. discriminate Hothers.
Qed.

(** C1, as the code has it.  When one source fails while the others
    answer, the failure is absorbed and the cycle is abandoned at that
    fetch: no [GridInfo] is published, whatever the other sources
    returned, and the fuel mix, which is fetched and stored first, is the
    only group updated, unless it is the mix fetch itself that failed. *)
Theorem failed_source_abandons_cycle
    (up : upstream) (src : source) (e clock : string) (s : state) :
  allSucceed up ->
  gridInfo (fetchData (failing src e up) clock s) = gridInfo s /\
  (src = MixFeed ->
   generationMix (fetchData (failing src e up) clock s) = generationMix s) /\
  (src <> MixFeed ->
   generationMix (fetchData (failing src e up) clock s)
   = generationMix (fetchData up clock s)).
Proof.
  intros (Hm & He & Hp & Hd).
  assert (Hfail : failed (energy_mix (failing src e up)) \/
                  failed (emissions_api (failing src e up)) \/
                  failed (pricing_api (failing src e up)) \/
                  failed (demand_api (failing src e up)))
    by (destruct src; simpl; tauto).
  destruct (fetchData_failed _ clock s Hfail) as [Hg Hmix].
  split; [exact Hg |]. rewrite Hmix. split.
  - intros ->. reflexivity.
  - intros Hsrc.
    assert (Hsame : energy_mix (failing src e up) = energy_mix up)
      by (destruct src; [contradiction | reflexivity ..]).
    rewrite Hsame.
    destruct (energy_mix up) as [m | e1] eqn:Em; [| contradiction].
    unfold fetchData, tryCatch, bind, await, setGenerationMix. rewrite Em.
    destruct (emissions_api up); [| reflexivity].
    destruct (pricing_api up); [| reflexivity].
    destruct (demand_api up) as [d |]; [| reflexivity].
    destruct (getProp d "data") as [latest |]; [| reflexivity].
    destruct (getProp latest "ND") as [nd |]; [| reflexivity].
    unfold flowColumns, mapM, bind, await, ret, setGridInfo.
    repeat (destruct (getProp latest _); [| reflexivity]).
    reflexivity.
Qed.

Lemma failed_source_abandons_cycle_witness :
  allSucceed sampleUpstream /\
  gridInfo (fetchData (failing PricingFeed "timeout" sampleUpstream)
              "14:05:00" initialState) = gridInfo initialState /\
  (PricingFeed = MixFeed ->
   generationMix (fetchData (failing PricingFeed "timeout" sampleUpstream)
                    "14:05:00" initialState) = generationMix initialState) /\
  (PricingFeed <> MixFeed ->
   generationMix (fetchData (failing PricingFeed "timeout" sampleUpstream)
                    "14:05:00" initialState)
   = generationMix (fetchData sampleUpstream "14:05:00" initialState)).
Proof.
  assert (H : allSucceed sampleUpstream) by (repeat split).
  split; [exact H |].
  exact (failed_source_abandons_cycle sampleUpstream PricingFeed "timeout"
           "14:05:00" initialState H).
Defined.

(** A pricing feed that answers with an empty array, unlike one that
    fails, costs the price alone. *)
Example empty_pricing_isolated :
  let up := {| energy_mix := energy_mix sampleUpstream;
               emissions_api := emissions_api sampleUpstream;
               pricing_api := Return (VArr []);
               demand_api := demand_api sampleUpstream |} in
  group PricingFeed (fetchData up "14:05:00" initialState)
  = PricingGroup (Some (VStr "N/A")) /\
  forall other, other <> PricingFeed ->
    group other (fetchData up "14:05:00" initialState)
    = group other (fetchData sampleUpstream "14:05:00" initialState).
Proof.
  split; [reflexivity |].
  intros [| | |] H; try reflexivity. contradiction.
Qed.

(** *** C2: the derived generation *)

(** The scenario: [ND] = 32000 and flows summing to 1500. *)
Example generation_scenario :
  demandOf (demandRow (Some "32000") sampleFlows) = Num 32000 /\
  num_eq (transfersOf (demandRow (Some "32000") sampleFlows)) (Num 1500) /\
  option_map (fun g => (demand g, transfers g, generation g))
    (gridInfo (fetchData sampleUpstream "14:05:00" initialState))
  = Some ("32.00", "1.50", "30.50").
Proof. repeat split; reflexivity. Qed.

(** With demand and transfers both read as numbers, the generation
    published is their difference in GW, to two decimals. *)
Lemma generation_derivation
    (up : upstream) (clock : string) (s : state)
    (m : list Mix.GenerationMixItem) (em p d latest : value) (D T : Q) :
  energy_mix up = Return m ->
  emissions_api up = Return em ->
  pricing_api up = Return p ->
  demand_api up = Return d ->
  getProp d "data" = Return latest ->
  nullish latest = false ->
  demandOf latest = Num D ->
  transfersOf latest = Num T ->
  option_map generation (gridInfo (fetchData up clock s))
  = Some (toFixed 2 (Num (D / 1000 - T / 1000))).
Proof.
  intros Hm He Hp Hd Hl Hn HD HT.
  rewrite (fetchData_complete up clock s m em p d latest) by assumption.
  cbn [gridInfo option_map generation]. rewrite HD, HT. reflexivity.
Qed.

(** C2.  A demand record without [ND], with flows summing to 1500 MW:
    the demand is published as N/A, and the generation nevertheless as
    the number -1.50, computed from a demand defaulted to zero. *)
Theorem generation_fabricated_without_demand :
  optProp (demandRow None sampleFlows) "ND" = VUndefined /\
  option_map (fun g => (demand g, transfers g, generation g))
    (gridInfo (fetchData noDemandUpstream "14:05:00" initialState))
  = Some ("N/A", "1.50", "-1.50").
Proof. split; reflexivity. Qed.

(** *** C9: determinism *)

(** C9.  Two runs of [fetchData] over the same source outputs, from the
    same state or one after the other, end in states that agree on every
    field but [time]. *)
Theorem aggregation_deterministic
    (up : upstream) (clock1 clock2 : string) (s : state) :
  sameButTime (fetchData up clock1 s) (fetchData up clock2 s) /\
  sameButTime (fetchData up clock1 s)
              (fetchData up clock2 (fetchData up clock1 s)).
Proof.
  destruct (fetchData_cases up) as [(m & p & e & d & g & t & H) | H].
  - rewrite !H. unfold sameButTime. simpl. repeat split.
  - destruct (H clock1 s) as [G1 M1].
    destruct (H clock2 s) as [G2 M2].
    destruct (H clock2 (fetchData up clock1 s)) as [G3 M3].
    unfold sameButTime. rewrite G3, M3, G2, M2, G1, M1.
    destruct (energy_mix up), (gridInfo s); repeat split.
Qed.

(** *** Zero and falsy numbers *)

(** A market price of exactly zero is published as N/A, not as zero. *)
Lemma zero_price_published_unknown : ~ UnknownPropagation.
Proof.
  intros H.
  destruct (H zeroPriceUpstream "14:05:00" (samplePricing 0) _
              eq_refl eq_refl) as [_ Hzero].
  specialize (Hzero 0%Q eq_refl ltac:(reflexivity)).
  vm_compute in Hzero. discriminate Hzero.
Qed.

Lemma truthyNumber_Num q : truthyNumber (Num q) = false <-> (q == 0)%Q.
Proof.
  simpl. rewrite negb_false_iff. apply Qeq_bool_iff.
Qed.

Lemma orNumber_falsy x : truthyNumber x = false -> orNumber x zero = zero.
Proof. unfold orNumber. intros ->. reflexivity. Qed.

Lemma orNumber_truthy x : truthyNumber x = true -> orNumber x zero = x.
Proof. unfold orNumber. intros ->. reflexivity. Qed.

End HomeFacts.

(* ================================================================== *)
(** ** Theorems: the feed proxies *)
(* ================================================================== *)

Module ApiFacts.
Import JS Api.
Local Open Scope string_scope.
Local Open Scope Z_scope.

(** The check does reject an envelope without [data], or with a [null]
    one. *)
Lemma missing_data_rejected (r : Response) (envelope : value) :
  json r = Return envelope ->
  truthy (optProp envelope "data") = false ->
  emissionsHandler (Return r)
  = {| status := 500; body := errorBody "Failed to fetch emissions data" |} /\
  pricingHandler (Return r)
  = {| status := 500; body := errorBody "Failed to fetch pricing data" |}.
Proof.
  intros Hj Ht. unfold emissionsHandler, pricingHandler. simpl. rewrite Hj.
  destruct envelope; simpl in *; try rewrite Ht; split; reflexivity.
Qed.

(** C7.  An envelope whose [data] is the empty array passes the check of
    both handlers: the reply is 200 with the empty array, not an error. *)
Theorem empty_data_array_accepted :
  emissionsHandler (jsonResponse (VObj [("data", VArr [])]))
  = {| status := 200; body := VArr [] |} /\
  pricingHandler (jsonResponse (VObj [("data", VArr [])]))
  = {| status := 200; body := VArr [] |}.
Proof. split; reflexivity. Qed.

(** The demand proxy on a feed of two records: the first one is sent. *)
Example demand_first_record :
  demandHandler sampleParse
    (Return (textResponse "ND,IFA_FLOW
32000,1000
31000,900
"))
  = {| status := 200;
       body := VObj [("data", VObj [("ND", VStr "32000");
                                    ("IFA_FLOW", VStr "1000")])] |}.
Proof. reflexivity. Qed.

End ApiFacts.

(* ================================================================== *)
(** ** Theorems: the two clock readings *)
(* ================================================================== *)

Module JSDateMoreFacts.
Import JSDate JSDateFacts.

(** X1.  [getNextFiveMinuteMark] reads the clock twice.  In a zone of
    fixed offset, whatever the two readings, the delay counted from the
    second reading ends on the first five-minute mark after the first
    reading; so the delay is at most one period when the clock did not
    run backwards, and it is negative exactly when that mark had passed
    by the second reading. *)
Theorem getNextFiveMinuteMark_between_readings (tza t_new t_now : Z) :
  Z.abs t_new <= maxTimeValue - period ->
  exists mark delay,
    getNextFiveMinuteMark tza t_new t_now = Some delay /\
    onFiveMinuteMark tza mark /\
    t_new < mark <= t_new + period /\
    t_now + delay = mark /\
    (t_new <= t_now -> delay <= period) /\
    (delay < 0 <-> mark < t_now).
Proof.
  intros Hb. exists (period - (t_new + tza) mod period + t_new).
  eexists. split; [apply getNextFiveMinuteMark_eq; exact Hb |].
  pose proof (Z.mod_pos_bound (t_new + tza) period ltac:(reflexivity)) as Hm.
  rewrite onFiveMinuteMark_iff. change period with 300000 in *.
  repeat split; try lia.
  Z.div_mod_to_equations. lia.
Qed.

Lemma getNextFiveMinuteMark_between_readings_witness :
  exists mark delay,
    getNextFiveMinuteMark 0 1704117899999 1704117900002 = Some delay /\
    onFiveMinuteMark 0 mark /\
    1704117899999 < mark <= 1704117899999 + period /\
    1704117900002 + delay = mark /\
    (1704117899999 <= 1704117900002 -> delay <= period) /\
    (delay < 0 <-> mark < 1704117900002).
Proof.
  exact (getNextFiveMinuteMark_between_readings 0 1704117899999 1704117900002
           ltac:(vm_compute; discriminate)).
Defined.

(** One millisecond before a mark, with the second reading two
    milliseconds after it: the delay is -2. *)
Example getNextFiveMinuteMark_late_reading :
  getNextFiveMinuteMark 0 1704117899999 1704117900002 = Some (-2).
Proof. reflexivity. Qed.

End JSDateMoreFacts.

(* ================================================================== *)
(** ** Theorems: [roundToLastFiveMinuteMark] *)
(* ================================================================== *)

Module LastMarkFacts.
Import JSDate LastMark JSDateFacts.
Local Open Scope string_scope.

Lemma TimeClip_in_range t :
  Z.abs t <= maxTimeValue -> TimeClip t = Some t.
Proof.
  intros H. unfold TimeClip.
  destruct (Z.leb_spec (Z.abs t) maxTimeValue); [reflexivity | lia].
Qed.

(** The date that is printed is the last mark at or before [time]. *)
Lemma roundedDate_eq tza tv :
  Z.abs tv <= maxTimeValue - period ->
  roundedDate tza (Some tv) = Some (period * ((tv + tza) / period) - tza).
Proof.
  intros Hb.
  unfold roundedDate, getMinutesOf, setMinutesOnly, option_map.
  assert (E1 : setMinutes tza tv (getMinutes tza tv / 5 * 5)
                 (SecFromTime (LocalTime tza tv)) (msFromTime (LocalTime tza tv))
               = Some (tv - (MinFromTime (tv + tza) mod 5) * 60000)).
  { unfold setMinutes. rewrite TimeClip_in_range.
    - f_equal. unfold_date. Z.div_mod_to_equations. lia.
    - unfold_date. Z.div_mod_to_equations. lia. }
  rewrite E1. clear E1.
  set (t1 := tv - MinFromTime (tv + tza) mod 5 * 60000).
  assert (B1 : tv - 240000 <= t1 <= tv /\ (t1 + tza) mod 300000 = (t1 + tza) mod 60000
               /\ (t1 + tza) / 300000 = (tv + tza) / 300000).
  { unfold t1. unfold_date. Z.div_mod_to_equations. lia. }
  clearbody t1.
  unfold setSeconds.
  rewrite TimeClip_in_range.
  2:{ unfold_date. Z.div_mod_to_equations. lia. }
  unfold setMilliseconds.
  rewrite TimeClip_in_range.
  - f_equal. unfold_date. Z.div_mod_to_equations. lia.
  - unfold_date. Z.div_mod_to_equations. lia.
Qed.

(** X2.  For a valid [time] (at least one period inside the range of
    [Date]), [roundToLastFiveMinuteMark] prints, as [HH:MM], the wall-clock
    hour and minute of the latest five-minute mark that is not after
    [time]: the hour is the hour of [time], the minute is its minute
    rounded down to a multiple of five, and neither the seconds of [time]
    nor the zone text of [toTimeString] show. *)
Theorem roundToLastFiveMinuteMark_last_mark
    (tza : Z) (timeZoneString : string) (tv : Z) :
  Z.abs tv <= maxTimeValue - period ->
  exists mark,
    roundedDate tza (Some tv) = Some mark /\
    onFiveMinuteMark tza mark /\
    mark <= tv < mark + period /\
    HourFromTime (LocalTime tza mark) = HourFromTime (LocalTime tza tv) /\
    MinFromTime (LocalTime tza mark) = MinFromTime (LocalTime tza tv) / 5 * 5 /\
    roundToLastFiveMinuteMark tza timeZoneString (Some tv)
    = pad2 (HourFromTime (LocalTime tza tv)) ++ ":"
      ++ pad2 (MinFromTime (LocalTime tza tv) / 5 * 5).
Proof.
  intros Hb. eexists. split; [apply roundedDate_eq; exact Hb |].
  assert (Hh : HourFromTime (LocalTime tza (period * ((tv + tza) / period) - tza))
               = HourFromTime (LocalTime tza tv))
    by (unfold_date; Z.div_mod_to_equations; lia).
  assert (Hm : MinFromTime (LocalTime tza (period * ((tv + tza) / period) - tza))
               = MinFromTime (LocalTime tza tv) / 5 * 5)
    by (unfold_date; Z.div_mod_to_equations; lia).
  split; [rewrite onFiveMinuteMark_iff; unfold_date;
          Z.div_mod_to_equations; lia |].
  split; [unfold_date; Z.div_mod_to_equations; lia |].
  split; [exact Hh |]. split; [exact Hm |].
  unfold roundToLastFiveMinuteMark. rewrite roundedDate_eq by exact Hb.
  unfold toTimeString, TimeString. rewrite Hh, Hm. reflexivity.
Qed.

Lemma roundToLastFiveMinuteMark_last_mark_witness :
  exists mark,
    roundedDate 3600000 (Some 1704114229123) = Some mark /\
    onFiveMinuteMark 3600000 mark /\
    mark <= 1704114229123 < mark + period /\
    roundToLastFiveMinuteMark 3600000 "+0100 (CET)" (Some 1704114229123)
    = "14:00".
Proof.
  destruct (roundToLastFiveMinuteMark_last_mark 3600000 "+0100 (CET)"
              1704114229123 ltac:(vm_compute; discriminate))
    as (mark & H1 & H2 & H3 & _ & _ & H6).
  exists mark.
  split; [exact H1 |]. split; [exact H2 |]. split; [exact H3 |].
  rewrite H6. reflexivity.
Defined.

(** X3.  In a zone of fixed offset, and with every reading of the clock
    at the one instant [tv], the two clock utilities bracket the present:
    the mark that [roundToLastFiveMinuteMark] prints and the instant at
    which [getNextFiveMinuteMark] makes the timer fire are exactly one
    period apart, with the present in between. *)
Theorem last_and_next_mark_one_period_apart (tza tv : Z) :
  Z.abs tv <= maxTimeValue - period ->
  exists mark delay,
    roundedDate tza (Some tv) = Some mark /\
    getNextFiveMinuteMark tza tv tv = Some delay /\
    mark <= tv < tv + delay /\
    tv + delay = mark + period.
Proof.
  intros Hb. do 2 eexists.
  split; [apply roundedDate_eq; exact Hb |].
  split; [apply getNextFiveMinuteMark_eq; exact Hb |].
  unfold_date. Z.div_mod_to_equations. lia.
Qed.

Lemma last_and_next_mark_one_period_apart_witness :
  exists mark delay,
    roundedDate 0 (Some 1704117780000) = Some mark /\
    getNextFiveMinuteMark 0 1704117780000 1704117780000 = Some delay /\
    mark <= 1704117780000 < 1704117780000 + delay /\
    1704117780000 + delay = mark + period.
Proof.
  exact (last_and_next_mark_one_period_apart 0 1704117780000
           ltac:(vm_compute; discriminate)).
Defined.

(** An invalid [Date] prints as the first five characters of
    [Invalid Date]. *)
Example roundToLastFiveMinuteMark_invalid :
  roundToLastFiveMinuteMark 0 "+0000 (GMT)" None = "Inval".
Proof. reflexivity. Qed.

End LastMarkFacts.

(* ================================================================== *)
(** ** Theorems: the refresh timers *)
(* ================================================================== *)

Module RefreshFacts.
Import JSDate Refresh JSDateFacts.


Lemma disarm_single tm : disarm (handle tm) [tm] = [].
Proof. unfold disarm. simpl. rewrite Nat.eqb_refl. reflexivity. Qed.

Lemma fire_recurring p h d :
  timers p = [recurring h d] ->
  fire p = {| now := d; timers := [recurring h (d + period)];
              nextHandle := nextHandle p; fetches := d :: fetches p;
              cleanup := cleanup p |}.
Proof.
  intros H. unfold fire. rewrite H. cbn [nextTimer run recurring].
  fold (recurring h d). rewrite (disarm_single (recurring h d)).
  reflexivity.
Qed.

Lemma fireTimes_recurring n : forall p h d,
  timers p = [recurring h d] ->
  timers (fireTimes n p) = [recurring h (d + Z.of_nat n * period)] /\
  cleanup (fireTimes n p) = cleanup p /\
  fetches (fireTimes n p)
  = rev (map (fun k => d + Z.of_nat k * period) (seq 0 n)) ++ fetches p.
Proof.
  induction n as [| n IH]; intros p h d H.
  - simpl. rewrite H. repeat split. f_equal. f_equal. lia.
  - cbn [fireTimes]. rewrite (fire_recurring p h d H).
    destruct (IH {| now := d; timers := [recurring h (d + period)];
                    nextHandle := nextHandle p; fetches := d :: fetches p;
                    cleanup := cleanup p |} h (d + period) eq_refl)
      as (Ht & Hc & Hf).
    rewrite Ht, Hc, Hf. cbn [cleanup fetches].
    split; [f_equal; f_equal; lia |]. split; [reflexivity |].
    cbn [seq map rev]. rewrite <- seq_shift, map_map, <- app_assoc.
    cbn [app]. f_equal.
    + f_equal. apply map_ext. intros k. lia.
    + f_equal. lia.
Qed.

Lemma nextMark_spec tza t :
  onFiveMinuteMark tza (nextMark tza t) /\
  t < nextMark tza t <= t + period /\
  forall k, onFiveMinuteMark tza (nextMark tza t + Z.of_nat k * period).
Proof.
  unfold nextMark. split; [| split].
  - rewrite onFiveMinuteMark_iff. unfold_date. Z.div_mod_to_equations. lia.
  - unfold_date. Z.div_mod_to_equations. lia.
  - intros k. rewrite onFiveMinuteMark_iff. unfold_date.
    generalize (Z.of_nat k). intros z. Z.div_mod_to_equations. lia.
Qed.

Lemma mount_timers tza t :
  Z.abs t <= maxTimeValue - period ->
  timers (mount tza t)
  = [{| handle := 1; due := nextMark tza t; every := None;
        run := InitialTimeout |}].
Proof.
  intros Hb. unfold mount. rewrite (getNextFiveMinuteMark_eq tza t t Hb).
  cbn [timers clampDelay]. do 2 f_equal.
  pose proof (Z.mod_pos_bound (t + tza) period ltac:(reflexivity)).
  unfold nextMark. unfold_date. Z.div_mod_to_equations. lia.
Qed.

Lemma fire_mount tza t :
  Z.abs t <= maxTimeValue - period ->
  fire (mount tza t)
  = {| now := nextMark tza t;
       timers := [recurring 2 (nextMark tza t + period)];
       nextHandle := 3; fetches := [nextMark tza t; t];
       cleanup := Some 1%nat |}.
Proof.
  intros Hb. unfold fire. rewrite (mount_timers tza t Hb).
  cbn [nextTimer run handle due]. reflexivity.
Qed.

(** X4.  In a zone of fixed offset, with both clock readings of
    [getNextFiveMinuteMark] at the instant [t] of mounting and timers
    that fire at their due instants: once mounted at [t], the page calls
    [fetchData] at [t] and then at the next five-minute mark after [t]
    and at every period from there on, so that every call but the first
    falls on a five-minute mark of the wall clock. *)
Theorem refresh_calls_on_marks (tza t : Z) (n : nat) :
  Z.abs t <= maxTimeValue - period ->
  exists mark,
    onFiveMinuteMark tza mark /\ t < mark <= t + period /\
    rev (fetches (fireTimes (S n) (mount tza t)))
    = t :: map (fun k => mark + Z.of_nat k * period) (seq 0 (S n)) /\
    forall x, In x (fetches (fireTimes (S n) (mount tza t))) ->
              x = t \/ onFiveMinuteMark tza x.
Proof.
  intros Hb. exists (nextMark tza t).
  destruct (nextMark_spec tza t) as (Hon & Hlt & Hall).
  split; [exact Hon |]. split; [exact Hlt |].
  cbn [fireTimes]. rewrite (fire_mount tza t Hb).
  match goal with
  | |- context [fireTimes n ?p] =>
      destruct (fireTimes_recurring n p 2%nat (nextMark tza t + period) eq_refl)
        as (_ & _ & Hf)
  end.
  rewrite Hf. cbn [fetches].
  assert (E : rev (rev (map (fun k => nextMark tza t + period + Z.of_nat k * period)
                          (seq 0 n)) ++ [nextMark tza t; t])
              = t :: map (fun k => nextMark tza t + Z.of_nat k * period)
                       (seq 0 (S n))).
  { rewrite rev_app_distr, rev_involutive. cbn [rev app seq map].
    f_equal. f_equal; [lia |].
    rewrite <- seq_shift, map_map. apply map_ext. intros k. lia. }
  split; [exact E |].
  intros x Hx. apply in_rev in Hx. rewrite E in Hx.
  destruct Hx as [<- | Hx]; [left; reflexivity | right].
  apply in_map_iff in Hx. destruct Hx as (k & <- & _). apply Hall.
Qed.

Lemma refresh_calls_on_marks_witness :
  exists mark,
    onFiveMinuteMark 0 mark /\ 1704117780000 < mark <= 1704117780000 + period /\
    rev (fetches (fireTimes 3 (mount 0 1704117780000)))
    = 1704117780000 :: map (fun k => mark + Z.of_nat k * period) (seq 0 3) /\
    forall x, In x (fetches (fireTimes 3 (mount 0 1704117780000))) ->
              x = 1704117780000 \/ onFiveMinuteMark 0 x.
Proof.
  exact (refresh_calls_on_marks 0 1704117780000 2
           ltac:(vm_compute; discriminate)).
Defined.

(** X5.  Unmounting before the first timer has fired disarms everything:
    [fetchData] is never called again.  Unmounting after it has fired
    clears nothing, because the only handle the cleanup knows is that of
    the spent timeout: the interval stays armed and goes on calling
    [fetchData] every period. *)
Theorem unmount_leaves_interval (tza t : Z) (n : nat) :
  Z.abs t <= maxTimeValue - period ->
  timers (unmount (mount tza t)) = [] /\
  fetches (fireTimes n (unmount (mount tza t))) = [t] /\
  timers (unmount (fireTimes (S n) (mount tza t)))
  = timers (fireTimes (S n) (mount tza t)) /\
  timers (unmount (fireTimes (S n) (mount tza t))) <> [] /\
  exists mark, 
    t < mark /\
    fetches (fire (unmount (fireTimes (S n) (mount tza t))))
    = mark :: fetches (fireTimes (S n) (mount tza t)).
Proof.
  intros Hb.
  assert (H0 : timers (unmount (mount tza t)) = []).
  { unfold unmount. cbn [cleanup mount timers].
    pose proof (mount_timers tza t Hb) as Hm. unfold mount in Hm.
    cbn [timers] in Hm. rewrite Hm. reflexivity. }
  split; [exact H0 |]. split.
  { assert (Hidle : forall p, timers p = [] -> fire p = p)
      by (intros p Hp; unfold fire; rewrite Hp; reflexivity).
    assert (Hf : fetches (unmount (mount tza t)) = [t]) by reflexivity.
    revert H0 Hf. generalize (unmount (mount tza t)). 
    induction n as [| n IH]; intros p Hp Hf; [exact Hf |].
    cbn [fireTimes]. rewrite (Hidle p Hp). apply IH; assumption. }
  cbn [fireTimes]. rewrite (fire_mount tza t Hb).
  match goal with
  | |- context [fireTimes n ?p] =>
      destruct (fireTimes_recurring n p 2%nat (nextMark tza t + period) eq_refl)
        as (Ht & Hc & Hf);
      set (q := fireTimes n p) in *
  end.
  cbn [cleanup] in Hc.
  assert (Hu : timers (unmount q) = timers q).
  { unfold unmount. rewrite Hc. cbn [timers]. rewrite Ht. reflexivity. }
  split; [exact Hu |]. split; [rewrite Hu, Ht; discriminate |].
  exists (nextMark tza t + period + Z.of_nat n * period).
  split.
  { destruct (nextMark_spec tza t) as (_ & Hlt & _). unfold period in *. lia. }
  rewrite (fire_recurring (unmount q) 2 _ (eq_trans Hu Ht)).
  cbn [fetches]. unfold unmount. rewrite Hc. reflexivity.
Qed.

Lemma unmount_leaves_interval_witness :
  timers (unmount (mount 0 1704117780000)) = [] /\
  timers (unmount (fireTimes 1 (mount 0 1704117780000))) <> [].
Proof.
  destruct (unmount_leaves_interval 0 1704117780000 0
              ltac:(vm_compute; discriminate)) as (H1 & _ & _ & H4 & _).
  split; [exact H1 | exact H4].
Defined.

End RefreshFacts.

(* ================================================================== *)
(** ** Theorems: [DarkMode] *)
(* ================================================================== *)

Module DarkModeFacts.
Import DarkMode.
Local Open Scope string_scope.

Lemma classAdd_In c l x : In x (classAdd c l) <-> x = c \/ In x l.
Proof.
  unfold classAdd. destruct (existsb (String.eqb c) l) eqn:E.
  - split; [auto |]. intros [-> | H]; [| exact H].
    apply existsb_exists in E. destruct E as (y & Hy & Ey).
    apply String.eqb_eq in Ey. subst y. exact Hy.
  - rewrite in_app_iff. simpl. split.
    + intros [H | [H | []]]; auto.
    + intros [-> | H]; auto.
Qed.

Lemma classRemove_In c l x : In x (classRemove c l) <-> x <> c /\ In x l.
Proof.
  unfold classRemove. rewrite filter_In, negb_true_iff, String.eqb_neq.
  tauto.
Qed.

Lemma effect_spec v x :
  In x (classList (effect v)) <->
  (x = "dark" /\ isDarkMode v = true) \/ (x <> "dark" /\ In x (classList v)).
Proof.
  unfold effect. cbn [classList isDarkMode].
  destruct (isDarkMode v).
  - rewrite classAdd_In. destruct (String.eqb_spec x "dark"); tauto.
  - rewrite classRemove_In. split; [tauto |].
    intros [[_ H] | H]; [discriminate | tauto].
Qed.

(** X6.  After the first render and any number of clicks on the button,
    the body carries the class [dark] exactly when the component is in
    dark mode, which is after an odd number of clicks; every other class
    of the body is as it was, and the icon is filled white exactly in dark
    mode. *)
Theorem dark_class_follows_state (body : list string) (n : nat) :
  let v := clicks n (mount body) in
  isDarkMode v = Nat.odd n /\
  (In "dark" (classList v) <-> isDarkMode v = true) /\
  (forall c, c <> "dark" -> (In c (classList v) <-> In c body)) /\
  (iconFill v = "fill-white" <-> In "dark" (classList v)).
Proof.
  assert (Hinv : forall n v,
    (In "dark" (classList v) <-> isDarkMode v = true) ->
    let w := clicks n v in
    isDarkMode w = xorb (Nat.odd n) (isDarkMode v) /\
    (In "dark" (classList w) <-> isDarkMode w = true) /\
    (forall c, c <> "dark" -> (In c (classList w) <-> In c (classList v)))).
  { clear n. induction n as [| n IH]; intros v Hv.
    - cbn. split; [reflexivity |]. split; [exact Hv | tauto].
    - cbn [clicks].
      assert (Ht : In "dark" (classList (toggleDarkMode v))
                   <-> isDarkMode (toggleDarkMode v) = true).
      { unfold toggleDarkMode. rewrite effect_spec. cbn. tauto. }
      destruct (IH (toggleDarkMode v) Ht) as (H1 & H2 & H3).
      split.
      { rewrite H1. unfold toggleDarkMode. cbn [effect isDarkMode].
        rewrite Nat.odd_succ, <- Nat.negb_odd.
        destruct (Nat.odd n), (isDarkMode v); reflexivity. }
      split; [exact H2 |].
      intros c Hc. rewrite (H3 c Hc). unfold toggleDarkMode.
      rewrite effect_spec. cbn. tauto. }
  intros v.
  assert (Hm : In "dark" (classList (mount body))
               <-> isDarkMode (mount body) = true).
  { unfold mount. rewrite effect_spec. cbn. split.
    - intros [[_ H] | [H _]]; [discriminate | contradiction].
    - discriminate. }
  destruct (Hinv n (mount body) Hm) as (H1 & H2 & H3). fold v in H1, H2, H3.
  split; [rewrite H1; cbn; apply xorb_false_r |].
  split; [exact H2 |]. split.
  - intros c Hc. rewrite (H3 c Hc). unfold mount. rewrite effect_spec. cbn.
    tauto.
  - rewrite H2. unfold iconFill. destruct (isDarkMode v); split;
      auto; discriminate.
Qed.

Lemma dark_class_follows_state_witness :
  isDarkMode (clicks 3 (mount ["container"; "dark"])) = true /\
  In "dark" (classList (clicks 3 (mount ["container"; "dark"]))) /\
  In "container" (classList (clicks 3 (mount ["container"; "dark"]))).
Proof.
  destruct (dark_class_follows_state ["container"; "dark"] 3)
    as (H1 & H2 & H3 & _).
  split; [exact H1 |]. split; [apply H2; exact H1 |].
  apply (H3 "container"); [discriminate | left; reflexivity].
Defined.

End DarkModeFacts.

(* ================================================================== *)
(** ** Theorems: printing numbers *)
(* ================================================================== *)

Module JSMoreFacts.
Import JS JSFacts.

(** [toFixed] prints the value of a number, whatever fraction holds it. *)
Lemma toFixed_Qeq f p q : (p == q)%Q -> toFixed f (Num p) = toFixed f (Num q).
Proof.
  intros E. unfold toFixed, roundFixed.
  rewrite (Qleb_comp 0%Q 0%Q (Qeq_refl 0%Q) p q E).
  assert (E1 : Qfloor (p * inject_Z (10 ^ Z.of_nat f) + (1 # 2))%Q
               = Qfloor (q * inject_Z (10 ^ Z.of_nat f) + (1 # 2))%Q)
    by (apply Qfloor_comp; rewrite E; reflexivity).
  assert (E2 : Qfloor (- p * inject_Z (10 ^ Z.of_nat f) + (1 # 2))%Q
               = Qfloor (- q * inject_Z (10 ^ Z.of_nat f) + (1 # 2))%Q)
    by (apply Qfloor_comp; rewrite E; reflexivity).
  rewrite E1, E2. reflexivity.
Qed.

Lemma toFixed_num_eq f x y : num_eq x y -> toFixed f x = toFixed f y.
Proof.
  destruct x as [| a | p], y as [| b | q]; simpl; try contradiction.
  - reflexivity.
  - intros ->. reflexivity.
  - apply toFixed_Qeq.
Qed.

End JSMoreFacts.

(* ================================================================== *)
(** ** Theorems: lists and chart *)
(* ================================================================== *)

Module MixMoreFacts.
Import JS Mix JSFacts JSMoreFacts.
Local Open Scope string_scope.

Lemma includes_In xs x : includes xs x = true <-> In x xs.
Proof.
  unfold includes. rewrite existsb_exists. split.
  - intros (y & Hy & E). apply String.eqb_eq in E. subst y. exact Hy.
  - intros Hx. exists x. split; [exact Hx | apply String.eqb_refl].
Qed.

(** X7.  The three lists of [Home] never show one entry twice: an entry,
    whatever the case of its fuel name, is listed under at most one of
    Fossil Fuels, Renewables and Other Sources. *)
Theorem home_lists_disjoint (f : GenerationMixItem) :
  (listed homeFossilFuels f = true -> 
     listed homeRenewables f = false /\ listed homeOtherSources f = false) /\
  (listed homeRenewables f = true -> 
     listed homeFossilFuels f = false /\ listed homeOtherSources f = false) /\
  (listed homeOtherSources f = true -> 
     listed homeFossilFuels f = false /\ listed homeRenewables f = false).
Proof.
  unfold listed. generalize (toLowerCase (fuel f)). intros name.
  repeat match goal with |- _ /\ _ => split end;
    intros H; apply includes_In in H; simpl in H;
    repeat match goal with
    | H : _ \/ _ |- _ => destruct H as [H | H]
    end; try contradiction; subst name; split; reflexivity.
Qed.


Lemma home_lists_disjoint_witness :
  listed homeRenewables (entry "Hydro" 5) = true /\
  listed homeFossilFuels (entry "Hydro" 5) = false /\
  listed homeOtherSources (entry "Hydro" 5) = false.
Proof.
  destruct (home_lists_disjoint (entry "Hydro" 5)) as (_ & H & _).
  split; [reflexivity | exact (H eq_refl)].
Defined.

Lemma listed_In types f :
  listed types f = true <-> In (toLowerCase (fuel f)) types.
Proof. apply includes_In. Qed.

Lemma chart_names_lowercase x :
  In x ["wind"; "solar"; "hydro"; "coal"; "gas"; "oil"] -> toLowerCase x = x.
Proof.
  simpl. intros H.
  repeat (destruct H as [H | H]; [subst x; reflexivity |]). contradiction.
Qed.

(** X8.  For an entry whose fuel name is written in lower case, the lists
    of [Home] and the doughnut chart agree on the Renewables; whatever a
    list shows under Fossil Fuels or Other Sources the chart counts under
    the same category; and the only fuel that the chart counts under
    Fossil Fuels and the list does not show there is oil. *)
Theorem lists_agree_with_chart_on_lowercase (f : GenerationMixItem) :
  toLowerCase (fuel f) = fuel f ->
  listed homeRenewables f = isRenewable f /\
  (listed homeFossilFuels f = true -> isFossilFuel f = true) /\
  (listed homeOtherSources f = true -> isOther f = true) /\
  (isFossilFuel f = true /\ listed homeFossilFuels f = false
   <-> fuel f = "oil").
Proof.
  intros Hlow. unfold listed. rewrite Hlow.
  unfold isRenewable, isFossilFuel, isOther, homeRenewables,
    homeFossilFuels, homeOtherSources.
  generalize (fuel f). intros name.
  split; [reflexivity |].
  split.
  { intros H. apply includes_In in H. apply includes_In. simpl in *. tauto. }
  split.
  { intros H. apply includes_In in H. simpl in H.
    repeat (destruct H as [H | H]; [subst name; reflexivity |]).
    contradiction. }
  split.
  - intros [H1 H2]. apply includes_In in H1. simpl in H1.
    destruct H1 as [H | [H | [H | []]]]; subst name;
      [discriminate H2 | discriminate H2 | reflexivity].
  - intros ->. split; reflexivity.
Qed.

Lemma lists_agree_with_chart_on_lowercase_witness :
  listed homeRenewables (entry "solar" 10) = isRenewable (entry "solar" 10).
Proof.
  exact (proj1 (lists_agree_with_chart_on_lowercase (entry "solar" 10)
                  eq_refl)).
Defined.

(** X9.  The chart matches fuel names exactly, the lists fold their case:
    an entry whose name has an upper-case letter is counted under Other
    Sources by the chart, whatever list shows it. *)
Theorem chart_is_case_sensitive (f : GenerationMixItem) :
  toLowerCase (fuel f) <> fuel f ->
  isOther f = true /\ isRenewable f = false /\ isFossilFuel f = false.
Proof.
  intros Hup.
  assert (Hnot : ~ In (fuel f) ["wind"; "solar"; "hydro"; "coal"; "gas"; "oil"]).
  { intros Hin. apply Hup, chart_names_lowercase, Hin. }
  unfold isOther, isRenewable, isFossilFuel.
  repeat split.
  - apply negb_true_iff. destruct (includes _ (fuel f)) eqn:E; [| reflexivity].
    apply includes_In in E. contradiction.
  - destruct (includes _ (fuel f)) eqn:E; [| reflexivity].
    apply includes_In in E. exfalso. apply Hnot. simpl in *. tauto.
  - destruct (includes _ (fuel f)) eqn:E; [| reflexivity].
    apply includes_In in E. exfalso. apply Hnot. simpl in *. tauto.
Qed.

Lemma chart_is_case_sensitive_witness :
  isOther (entry "Wind" 20) = true /\
  listed homeRenewables (entry "Wind" 20) = true.
Proof.
  split; [| reflexivity].
  exact (proj1 (chart_is_case_sensitive (entry "Wind" 20)
                  ltac:(discriminate))).
Defined.

(** X10.  A list with nothing to show, because the mix is empty or has no
    entry of its fuel types, has no rows and the total [0.00]. *)
Theorem empty_list_total (fuelTypes : list string)
    (generationMix : list GenerationMixItem) :
  (forall f, In f generationMix -> listed fuelTypes f = false) ->
  fuelListRows fuelTypes generationMix = [] /\
  fuelListTotal fuelTypes generationMix = "0.00".
Proof.
  intros H.
  assert (E : filter (listed fuelTypes) generationMix = []).
  { induction generationMix as [| f l IH]; [reflexivity |].
    simpl. rewrite (H f (or_introl eq_refl)). apply IH.
    intros g Hg. apply H. right. exact Hg. }
  unfold fuelListRows, fuelListTotal. rewrite E. split; reflexivity.
Qed.

Lemma empty_list_total_witness :
  fuelListRows homeFossilFuels [entry "wind" 20; entry "nuclear" 15] = [] /\
  fuelListTotal homeFossilFuels [entry "wind" 20; entry "nuclear" 15] = "0.00".
Proof.
  apply empty_list_total.
  intros f [<- | [<- | []]]; reflexivity.
Defined.

(** The percentage a list shows for an entry is the one the chart draws,
    but for a NaN, which the list shows as 0. *)
Lemma listedShare_share f :
  share f = NaN \/ num_eq (listedShare f) (share f).
Proof.
  unfold listedShare, share.
  destruct (carbonIntensityPercentage f) as [[| b | q] |].
  - left. reflexivity.
  - right. reflexivity.
  - right. unfold orNumber. destruct (truthyNumber (Num q)) eqn:T.
    + simpl. reflexivity.
    + simpl in T. apply negb_false_iff, Qeq_bool_iff in T.
      simpl. symmetry. exact T.
  - right. simpl. reflexivity.
Qed.

Lemma fold_listed_shares l : forall a b,
  num_eq a b ->
  (forall f, In f l -> share f <> NaN) ->
  num_eq (fold_left (fun sum source => add sum (listedShare source)) l a)
         (fold_left sumShares l b).
Proof.
  induction l as [| f l IH]; intros a b Hab Hl; [exact Hab |].
  cbn [fold_left]. apply IH.
  - unfold sumShares.
    destruct (listedShare_share f) as [C | E].
    + exfalso. apply (Hl f); [left; reflexivity | exact C].
    + rewrite Hab, E. reflexivity.
  - intros g Hg. apply Hl. right. exact Hg.
Qed.

(** X11.  When the fuel names of the mix are in lower case and no
    percentage is NaN, the total that [Home] shows over its Renewables
    list is the Renewables aggregate of the chart, printed with two
    decimals. *)
Theorem renewables_total_matches_chart (generationMix : list GenerationMixItem) :
  (forall f, In f generationMix -> toLowerCase (fuel f) = fuel f) ->
  (forall f, In f generationMix -> share f <> NaN) ->
  fuelListTotal homeRenewables generationMix
  = toFixed 2 (renewables generationMix).
Proof.
  intros Hlow Hnan. unfold fuelListTotal, renewables.
  assert (E : filter (listed homeRenewables) generationMix
              = filter isRenewable generationMix).
  { apply filter_ext_in. intros f Hf. unfold listed, isRenewable.
    rewrite (Hlow f Hf). reflexivity. }
  rewrite E. apply toFixed_num_eq, fold_listed_shares; [reflexivity |].
  intros f Hf. apply Hnan. apply filter_In in Hf. apply Hf.
Qed.

Lemma renewables_total_matches_chart_witness :
  fuelListTotal homeRenewables scenarioMix = toFixed 2 (renewables scenarioMix).
Proof.
  apply renewables_total_matches_chart.
  - intros f Hf. simpl in Hf.
    repeat (destruct Hf as [<- | Hf]; [reflexivity |]). contradiction.
  - intros f Hf. simpl in Hf.
    repeat (destruct Hf as [<- | Hf]; [discriminate |]). contradiction.
Defined.

End MixMoreFacts.

(* ================================================================== *)
(** ** Theorems: more on the aggregation step *)
(* ================================================================== *)

Module HomeMoreFacts.
Import JS Home HomeFacts JSFacts JSMoreFacts HomeSamples.
Local Open Scope string_scope.

(** A snapshot that appears on a page that had none was published by this
    cycle: every fetch succeeded and the demand answer wraps a record. *)
Lemma published_inv up clock g :
  gridInfo (fetchData up clock initialState) = Some g ->
  exists m em p d latest,
    energy_mix up = Return m /\ emissions_api up = Return em /\
    pricing_api up = Return p /\ demand_api up = Return d /\
    getProp d "data" = Return latest /\ nullish latest = false.
Proof.
  intros H.
  pose proof (fetchData_failed up clock initialState) as Hfail.
  destruct (energy_mix up) as [m | e1] eqn:Hm;
    [| destruct Hfail as [G _]; [simpl; tauto | rewrite G in H; discriminate H]].
  destruct (emissions_api up) as [em | e2] eqn:He;
    [| destruct Hfail as [G _]; [simpl; tauto | rewrite G in H; discriminate H]].
  destruct (pricing_api up) as [p | e3] eqn:Hp;
    [| destruct Hfail as [G _]; [simpl; tauto | rewrite G in H; discriminate H]].
  destruct (demand_api up) as [d | e4] eqn:Hd;
    [| destruct Hfail as [G _]; [simpl; tauto | rewrite G in H; discriminate H]].
  clear Hfail.
  destruct (getProp d "data") as [latest | e5] eqn:Hl.
  - destruct (nullish latest) eqn:Hn.
    + exfalso. destruct (getProp_nullish latest "ND" Hn) as [e6 Hnd].
      unfold fetchData, tryCatch, bind, await, setGenerationMix in H.
      rewrite Hm, He, Hp, Hd, Hl, Hnd in H. discriminate H.
    + exists m, em, p, d, latest. repeat split; reflexivity || assumption.
  - exfalso.
    unfold fetchData, tryCatch, bind, await, setGenerationMix in H.
    rewrite Hm, He, Hp, Hd, Hl in H. discriminate H.
Qed.

(** X12.  Whatever a cycle publishes as price or as emissions is truthy:
    the text N/A or the reading itself, never 0, NaN, null, [false] or the
    empty text. *)
Theorem published_price_is_truthy up clock g :
  gridInfo (fetchData up clock initialState) = Some g ->
  truthy (price g) = true /\ truthy (emissions g) = true /\
  (price g <> VStr "N/A" ->
   forall p, pricing_api up = Return p -> price g = priceReading p) /\
  (emissions g <> VStr "N/A" ->
   forall em, emissions_api up = Return em ->
              emissions g = emissionsReading em).
Proof.
  intros H.
  destruct (published_inv up clock g H)
    as (m & em & p & d & latest & Hm & He & Hp & Hd & Hl & Hn).
  rewrite (fetchData_complete up clock initialState m em p d latest) in H
    by assumption.
  cbn [gridInfo] in H. apply JSDateFacts.Some_eq in H. subst g.
  cbn [price emissions].
  assert (Hor : forall v, truthy (or v (VStr notAvailable)) = true /\
                          (or v (VStr notAvailable) <> VStr "N/A" ->
                           or v (VStr notAvailable) = v)).
  { intros v. unfold or. destruct (truthy v) eqn:T.
    - split; [exact T | reflexivity].
    - split; [reflexivity |]. intros C. exfalso. apply C. reflexivity. }
  split; [apply Hor |]. split; [apply Hor |]. split.
  - intros Hna p' Hp'. rewrite Hp in Hp'. injection Hp' as <-.
    apply Hor, Hna.
  - intros Hna em' He'. rewrite He in He'. injection He' as <-.
    apply Hor, Hna.
Qed.

Lemma published_price_is_truthy_witness :
  exists g,
    gridInfo (fetchData zeroPriceUpstream "14:05:00" initialState) = Some g /\
    truthy (price g) = true /\ truthy (emissions g) = true.
Proof.
  eexists. split; [reflexivity |].
  match goal with
  | |- truthy (price ?g) = true /\ _ =>
      destruct (published_price_is_truthy zeroPriceUpstream "14:05:00" g
                  eq_refl) as (H1 & H2 & _)
  end.
  split; [exact H1 | exact H2].
Defined.


(** X13.  Of the demand record a cycle reads [ND] and the seven flow
    columns and nothing else: two records that agree on these eight
    columns give the same state, snapshot included. *)
Theorem other_columns_ignored
    (up1 up2 : upstream) (clock : string) (s : state) (d1 d2 l1 l2 : value) :
  energy_mix up1 = energy_mix up2 ->
  emissions_api up1 = emissions_api up2 ->
  pricing_api up1 = pricing_api up2 ->
  demand_api up1 = Return d1 -> demand_api up2 = Return d2 ->
  getProp d1 "data" = Return l1 -> getProp d2 "data" = Return l2 ->
  nullish l1 = false -> nullish l2 = false ->
  (forall column, In column ("ND" :: flowColumns) ->
                  optProp l1 column = optProp l2 column) ->
  fetchData up1 clock s = fetchData up2 clock s.
Proof.
  intros Hm He Hp Hd1 Hd2 Hl1 Hl2 Hn1 Hn2 Hcols.
  assert (HD : demandOf l1 = demandOf l2).
  { unfold demandOf, readNumber. rewrite (Hcols "ND"); [reflexivity |].
    left. reflexivity. }
  assert (HT : transfersOf l1 = transfersOf l2).
  { unfold transfersOf. f_equal. apply map_ext_in. intros c Hc.
    unfold readNumber. rewrite (Hcols c); [reflexivity |]. right. exact Hc. }
  destruct (energy_mix up2) as [m | e1] eqn:Em.
  2:{ unfold fetchData, tryCatch, bind, await. rewrite Hm, Em. reflexivity. }
  destruct (emissions_api up2) as [em | e2] eqn:Ee.
  2:{ unfold fetchData, tryCatch, bind, await, setGenerationMix.
      rewrite Hm, He, Em, Ee. reflexivity. }
  destruct (pricing_api up2) as [p | e3] eqn:Ep.
  2:{ unfold fetchData, tryCatch, bind, await, setGenerationMix.
      rewrite Hm, He, Hp, Em, Ee, Ep. reflexivity. }
  rewrite (fetchData_complete up1 clock s m em p d1 l1) by assumption.
  rewrite (fetchData_complete up2 clock s m em p d2 l2) by assumption.
  rewrite HD, HT. reflexivity.
Qed.

(** X15.  A demand answer that arrives but wraps no record (no [data], or
    a [null] one) ends the cycle like a failed fetch: the mix of the cycle
    is stored, no snapshot is published and the one before stays. *)
Theorem missing_record_abandons_cycle
    (up : upstream) (clock : string) (s : state)
    (m : list Mix.GenerationMixItem) (em p d : value) :
  energy_mix up = Return m ->
  emissions_api up = Return em ->
  pricing_api up = Return p ->
  demand_api up = Return d ->
  nullish d = true \/ nullish (optProp d "data") = true ->
  generationMix (fetchData up clock s) = m /\
  gridInfo (fetchData up clock s) = gridInfo s.
Proof.
  intros Hm He Hp Hd Hmiss.
  unfold fetchData, tryCatch, bind, await, setGenerationMix.
  rewrite Hm, He, Hp, Hd.
  destruct (nullish d) eqn:Nd.
  - destruct (getProp_nullish d "data" Nd) as [e ->]. split; reflexivity.
  - destruct Hmiss as [C | Hmiss]; [discriminate C |].
    rewrite (getProp_optProp d "data" Nd).
    destruct (getProp_nullish _ "ND" Hmiss) as [e ->]. split; reflexivity.
Qed.

Lemma missing_record_abandons_cycle_witness :
  generationMix (fetchData emptyAnswerUpstream "14:05:00" initialState)
  = Mix.scenarioMix /\
  gridInfo (fetchData emptyAnswerUpstream "14:05:00" initialState) = None.
Proof.
  exact (missing_record_abandons_cycle emptyAnswerUpstream "14:05:00"
           initialState
           Mix.scenarioMix sampleEmissions (samplePricing 85.5) (VObj [])
           eq_refl eq_refl eq_refl eq_refl (or_intror eq_refl)).
Defined.

Lemma other_columns_ignored_witness :
  fetchData sampleUpstream "14:05:00" initialState
  = fetchData fullRowUpstream "14:05:00" initialState.
Proof.
  apply (other_columns_ignored sampleUpstream fullRowUpstream "14:05:00"
           initialState
           (demandBody (demandRow (Some "32000") sampleFlows))
           (demandBody fullRow)
           (demandRow (Some "32000") sampleFlows) fullRow);
    try reflexivity.
  intros column Hc. simpl in Hc.
  repeat (destruct Hc as [<- | Hc]; [reflexivity |]). contradiction.
Defined.

(** X16.  The answer of the pricing endpoint, whatever its shape, reaches
    the price field only, and the answer of the emissions endpoint the
    emissions field only: of two cycles that differ in one of these
    answers alone, the states agree on the mix, on demand, generation and
    transfers, on the time, and on the field of the other endpoint. *)
Theorem answer_shape_is_isolated
    (mix : completion (list Mix.GenerationMixItem))
    (demandAnswer : completion value)
    (em em' p p' : value) (clock : string) (s : state) :
  let run e q :=
    fetchData {| energy_mix := mix; emissions_api := Return e;
                 pricing_api := Return q; demand_api := demandAnswer |}
      clock s in
  (group MixFeed (run em p) = group MixFeed (run em' p') /\
   group DemandFeed (run em p) = group DemandFeed (run em' p') /\
   option_map time (gridInfo (run em p))
   = option_map time (gridInfo (run em' p'))) /\
  group EmissionsFeed (run em p) = group EmissionsFeed (run em p') /\
  group PricingFeed (run em p) = group PricingFeed (run em' p).
Proof.
  intros run.
  assert (Hcases :
    (exists g0, forall e q, run e q = {| generationMix := g0;
                                          gridInfo := gridInfo s |}) \/
    (exists m latest, forall e q,
        run e q = {| generationMix := m;
                     gridInfo := Some
                       {| time := clock;
                          price := or (priceReading q) (VStr notAvailable);
                          emissions := or (emissionsReading e)
                                          (VStr notAvailable);
                          demand := if truthyNumber (demandOf latest)
                                    then toFixed 2 (div1000 (demandOf latest))
                                    else notAvailable;
                          generation :=
                            toFixed 2 (sub (div1000 (demandOf latest))
                                           (div1000 (transfersOf latest)));
                          transfers :=
                            if truthyNumber (transfersOf latest)
                            then toFixed 2 (div1000 (transfersOf latest))
                            else notAvailable |} |})).
  { unfold run. clear run. destruct s as [gm gi].
    destruct mix as [m | e1]; [| left; eexists; intros; reflexivity].
    destruct demandAnswer as [d | e4]; [| left; eexists; intros; reflexivity].
    destruct (getProp d "data") as [latest | e5] eqn:Hl.
    - destruct (nullish latest) eqn:Hn.
      + left. destruct (getProp_nullish latest "ND" Hn) as [e6 Hnd].
        eexists. intros e q.
        unfold fetchData, tryCatch, bind, await, setGenerationMix.
        cbn [energy_mix emissions_api pricing_api demand_api].
        rewrite Hl, Hnd. reflexivity.
      + right. exists m, latest. intros e q.
        apply (fetchData_complete _ clock _ m e q d latest);
          reflexivity || assumption.
    - left. eexists. intros e q.
      unfold fetchData, tryCatch, bind, await, setGenerationMix.
      cbn [energy_mix emissions_api pricing_api demand_api].
      rewrite Hl. reflexivity. }
  destruct Hcases as [(g0 & H) | (m & latest & H)];
    rewrite !H; repeat split.
Qed.

End HomeMoreFacts.

(* ================================================================== *)
(** ** Theorems: the boxes of the page *)
(* ================================================================== *)

Module GridInfoViewFacts.
Import JS Home GridInfoView HomeFacts HomeMoreFacts.
Local Open Scope string_scope.

Lemma hasChar_append c a b :
  hasChar c (a ++ b) = hasChar c a || hasChar c b.
Proof.
  induction a as [| x a IH]; simpl; [reflexivity |].
  rewrite IH. apply orb_assoc.
Qed.

Lemma hasChar_substring c s : forall n m,
  hasChar c (substring n m s) = true -> hasChar c s = true.
Proof.
  induction s as [| x s IH]; intros n m H.
  - destruct n, m; simpl in H; discriminate H.
  - destruct n as [| n].
    + destruct m as [| m]; simpl in H; [discriminate H |].
      simpl. apply orb_true_iff in H. destruct H as [H | H].
      * rewrite H. reflexivity.
      * rewrite (IH 0%nat m H). apply orb_true_r.
    + simpl in H. simpl. rewrite (IH n m H). apply orb_true_r.
Qed.

Lemma hasChar_zeros k : hasChar "u" (zeros k) = false.
Proof. induction k; simpl; [reflexivity | exact IHk]. Qed.

Lemma hasChar_digits d :
  hasChar "u" (DecimalString.NilEmpty.string_of_uint d) = false.
Proof. induction d; simpl; assumption || reflexivity. Qed.

Lemma hasChar_number n :
  hasChar "u" (DecimalString.NilZero.string_of_uint n) = false.
Proof.
  unfold DecimalString.NilZero.string_of_uint.
  destruct n; try reflexivity; apply (hasChar_digits (_ n)) || idtac.
  all: match goal with
       | |- hasChar _ (DecimalString.NilEmpty.string_of_uint ?d) = false =>
           apply (hasChar_digits d)
       end.
Qed.

Lemma hasChar_placePoint f n : hasChar "u" (placePoint f n) = false.
Proof.
  unfold placePoint.
  set (m := zeros _ ++ _).
  assert (Hm : hasChar "u" m = false).
  { unfold m. rewrite hasChar_append, hasChar_zeros, hasChar_number.
    reflexivity. }
  destruct f as [| f]; [exact Hm |].
  rewrite !hasChar_append.
  destruct (hasChar "u" (substring 0 _ m)) eqn:E1.
  { apply hasChar_substring in E1. congruence. }
  destruct (hasChar "u" (substring _ (S f) m)) eqn:E2.
  { apply hasChar_substring in E2. congruence. }
  reflexivity.
Qed.

Lemma hasChar_toFixed f x : hasChar "u" (toFixed f x) = false.
Proof.
  destruct x as [| [|] | q]; try reflexivity.
  unfold toFixed. destruct (Qle_bool 0 q).
  - apply hasChar_placePoint.
  - rewrite hasChar_append, hasChar_placePoint. reflexivity.
Qed.

Lemma prefix_head c p s :
  prefix (String c p) s = true -> hasChar c s = true.
Proof.
  destruct s as [| x s]; simpl; [discriminate |].
  destruct (ascii_dec c x) as [-> | Hne]; [| discriminate].
  intros _. rewrite Ascii.eqb_refl. reflexivity.
Qed.

Lemma includesText_hasChar c p s :
  includesText (String c p) s = true -> hasChar c s = true.
Proof.
  induction s as [| x s IH]; intros H.
  - simpl in H. discriminate H.
  - cbn [includesText] in H. apply orb_true_iff in H. destruct H as [H | H].
    + apply (prefix_head c p), H.
    + simpl. rewrite (IH H). apply orb_true_r.
Qed.

Lemma shown_as_is text :
  hasChar "u" text = false -> shown (text ++ "GW") = text ++ "GW".
Proof.
  intros H. unfold shown.
  destruct (includesText "undefined" (text ++ "GW")) eqn:E; [| reflexivity].
  apply includesText_hasChar in E. rewrite hasChar_append, H in E.
  discriminate E.
Qed.

(** X17.  Until a snapshot is there, the box of demand, generation and
    transfers shows [fetching...] three times; once a cycle has published
    one, it shows the three figures of the snapshot followed by [GW], and
    never [fetching...] again in their place. *)
Theorem power_box_shows_snapshot
    (up : upstream) (clock : string) (g : GridInfo) :
  powerBox None
  = [("Demand", "fetching..."); ("Generation", "fetching...");
     ("Transfers", "fetching...")] /\
  (gridInfo (fetchData up clock initialState) = Some g ->
   powerBox (Some g)
   = [("Demand", demand g ++ "GW"); ("Generation", generation g ++ "GW");
      ("Transfers", transfers g ++ "GW")]).
Proof.
  split; [reflexivity |]. intros H.
  pose proof (published_inv up clock g H) as Hinv.
  destruct Hinv as (m & em & p & d & latest & Hm & He & Hp & Hd & Hl & Hn).
  rewrite (fetchData_complete up clock initialState m em p d latest) in H
    by assumption.
  cbn [gridInfo] in H. apply JSDateFacts.Some_eq in H. subst g.
  unfold powerBox, GridInfoComponent.
  cbn [map fst snd option_map template demand generation transfers].
  assert (Hna : hasChar "u" notAvailable = false) by reflexivity.
  rewrite !shown_as_is; [reflexivity | | |].
  - destruct (truthyNumber (transfersOf latest));
      [apply hasChar_toFixed | exact Hna].
  - apply hasChar_toFixed.
  - destruct (truthyNumber (demandOf latest));
      [apply hasChar_toFixed | exact Hna].
Qed.

Lemma power_box_shows_snapshot_witness :
  gridInfo (fetchData sampleUpstream "14:05:00" initialState)
  = Some HomeSamples.sampleSnapshot /\
  powerBox (Some HomeSamples.sampleSnapshot)
  = [("Demand", "32.00GW"); ("Generation", "30.50GW");
     ("Transfers", "1.50GW")].
Proof.
  split; [reflexivity |].
  exact (proj2 (power_box_shows_snapshot sampleUpstream "14:05:00"
                  HomeSamples.sampleSnapshot) eq_refl).
Defined.

End GridInfoViewFacts.

(* ================================================================== *)
(** ** Theorems: from the proxies to the page *)
(* ================================================================== *)

Module PipelineFacts.
Import JS Api Pipeline HomeFacts.
Local Open Scope string_scope.


(** X19.  The grid-info proxy checks nothing: whatever the upstream body
    decodes to is sent back with status 200, also an envelope without
    [data], which the emissions and the pricing proxy turn into a 500. *)
Theorem grid_info_forwards_unchecked (r : Response) (decoded : value) :
  json r = Return decoded ->
  gridInfoHandler (Return r) = {| status := 200; body := decoded |} /\
  (truthy (optProp decoded "data") = false ->
   status (emissionsHandler (Return r)) = 500 /\
   status (pricingHandler (Return r)) = 500).
Proof.
  intros Hj. unfold gridInfoHandler, emissionsHandler, pricingHandler.
  cbn [bind tryCatch]. rewrite Hj. cbn [bind tryCatch].
  split; [reflexivity |]. intros Ht.
  destruct decoded; cbn in *; try rewrite Ht; split; reflexivity.
Qed.

Lemma grid_info_forwards_unchecked_witness :
  gridInfoHandler (jsonResponse (VObj [("error", VStr "Bad Request")]))
  = {| status := 200; body := VObj [("error", VStr "Bad Request")] |} /\
  status (emissionsHandler
            (jsonResponse (VObj [("error", VStr "Bad Request")]))) = 500.
Proof.
  destruct (grid_info_forwards_unchecked
              {| text := Throw "body used already";
                 json := Return (VObj [("error", VStr "Bad Request")]) |}
              (VObj [("error", VStr "Bad Request")]) eq_refl) as [H1 H2].
  split; [exact H1 | exact (proj1 (H2 eq_refl))].
Defined.

Lemma axiosGet_500 r :
  status r = 500 -> Home.failed (axiosGet r).
Proof. intros H. unfold axiosGet. rewrite H. exact I. Qed.

(** X20.  From the upstream to the page: as soon as one of the three
    proxies replies 500, the cycle of the page publishes no snapshot, and
    the one on the page stays. *)
Theorem proxy_failure_freezes_snapshot
    (parse : string -> completion (list value))
    (mix : completion (list Mix.GenerationMixItem))
    (fe fp fd : completion Response) (clock : string) (s : Home.state) :
  status (emissionsHandler fe) = 500 \/ status (pricingHandler fp) = 500 \/
  status (demandHandler parse fd) = 500 ->
  Home.gridInfo (Home.fetchData (cycleInputs parse mix fe fp fd) clock s)
  = Home.gridInfo s.
Proof.
  intros H. apply fetchData_failed. unfold cycleInputs.
  cbn [Home.energy_mix Home.emissions_api Home.pricing_api Home.demand_api].
  destruct H as [H | [H | H]]; apply axiosGet_500 in H; tauto.
Qed.

Lemma proxy_failure_freezes_snapshot_witness :
  Home.gridInfo
    (Home.fetchData
       (cycleInputs sampleParse (Return Mix.scenarioMix)
          (jsonResponse (VObj [("data", Home.sampleEmissions)]))
          (Throw "getaddrinfo ENOTFOUND data.elexon.co.uk")
          (Return (textResponse "ND,IFA_FLOW")))
       "14:05:00" Home.initialState)
  = Home.gridInfo Home.initialState.
Proof.
  apply proxy_failure_freezes_snapshot. right. left. reflexivity.
Defined.

(** X21.  A demand feed without a single record is no error for the
    proxy, which replies 200 with an object that loses its [data] on the
    wire; the page then fails on that answer, and the whole cycle
    publishes no snapshot although all four requests succeeded. *)
Theorem empty_feed_passes_proxy_and_stops_page
    (parse : string -> completion (list value))
    (m : list Mix.GenerationMixItem)
    (fe fp : completion Response) (r : Response) (csv clock : string)
    (s : Home.state) :
  text r = Return csv -> parse csv = Return [] ->
  demandHandler parse (Return r)
  = {| status := 200; body := VObj [("data", VUndefined)] |} /\
  axiosGet (demandHandler parse (Return r)) = Return (VObj []) /\
  Home.gridInfo
    (Home.fetchData (cycleInputs parse (Return m) fe fp (Return r)) clock s)
  = Home.gridInfo s.
Proof.
  intros Ht Hp.
  assert (E : demandHandler parse (Return r)
              = {| status := 200; body := VObj [("data", VUndefined)] |}).
  { unfold demandHandler. cbn [bind tryCatch]. rewrite Ht.
    cbn [bind tryCatch]. rewrite Hp. reflexivity. }
  split; [exact E |]. split; [rewrite E; reflexivity |].
  unfold Home.fetchData, Home.tryCatch, Home.bind, Home.await,
    Home.setGenerationMix, cycleInputs.
  cbn [Home.energy_mix Home.emissions_api Home.pricing_api Home.demand_api].
  rewrite E.
  destruct (axiosGet (emissionsHandler fe)); [| reflexivity].
  destruct (axiosGet (pricingHandler fp)); reflexivity.
Qed.

Lemma empty_feed_passes_proxy_and_stops_page_witness :
  axiosGet (demandHandler (fun _ => Return [])
              (Return (textResponse "ND,IFA_FLOW")))
  = Return (VObj []) /\
  Home.gridInfo
    (Home.fetchData
       (cycleInputs (fun _ => Return []) (Return Mix.scenarioMix)
          (jsonResponse (VObj [("data", Home.sampleEmissions)]))
          (jsonResponse (VObj [("data", Home.samplePricing 85.5)]))
          (Return (textResponse "ND,IFA_FLOW")))
       "14:05:00" Home.initialState)
  = None.
Proof.
  destruct (empty_feed_passes_proxy_and_stops_page
              (fun _ => Return []) Mix.scenarioMix
              (jsonResponse (VObj [("data", Home.sampleEmissions)]))
              (jsonResponse (VObj [("data", Home.samplePricing 85.5)]))
              (textResponse "ND,IFA_FLOW") "ND,IFA_FLOW" "14:05:00"
              Home.initialState eq_refl eq_refl) as (_ & H2 & H3).
  split; [exact H2 | exact H3].
Defined.

(** From the upstream bodies to the boxes of the page, on the samples. *)
Example pipeline_sample :
  option_map (fun g => (Home.price g, Home.emissions g, Home.demand g))
    (Home.gridInfo
       (Home.fetchData
          (cycleInputs sampleParse (Return Mix.scenarioMix)
             (jsonResponse (VObj [("data", Home.sampleEmissions)]))
             (jsonResponse (VObj [("data", Home.samplePricing 85.5)]))
             (Return (textResponse "ND,IFA_FLOW
32000,1000
31000,900
")))
          "14:05:00" Home.initialState))
  = Some (VNum (Num 85.5), VNum (Num 120), "32.00").
Proof. reflexivity. Qed.

End PipelineFacts.

(* ================================================================== *)
(** ** Theorems: the scheduler where the clocks change *)
(* ================================================================== *)

Module ZonedFacts.
Import JSDate Zoned.

(** In a zone that keeps one offset the function is the one of the
    fixed-offset model. *)
Lemma fixedZone_getNextFiveMinuteMark tza t_new t_now :
  Zoned.getNextFiveMinuteMark (fixedZone tza) t_new t_now
  = JSDate.getNextFiveMinuteMark tza t_new t_now.
Proof. reflexivity. Qed.



(** The zone model against the calendar: on 27 October 2024 local time is
    one hour ahead of UTC until 01:00 UTC and equal to it from then on. *)
Example europeLondon_clock :
  HourFromTime (Zoned.LocalTime europeLondon oct27_0157_BST) = 1 /\
  MinFromTime (Zoned.LocalTime europeLondon oct27_0157_BST) = 57 /\
  HourFromTime (Zoned.LocalTime europeLondon oct27_0132_GMT) = 1 /\
  MinFromTime (Zoned.LocalTime europeLondon oct27_0132_GMT) = 32 /\
  oct27_0132_GMT - oct27_0157_BST = 35 * msPerMinute /\
  HourFromTime (Zoned.LocalTime europeLondon oct27_0100_GMT) = 1 /\
  MinFromTime (Zoned.LocalTime europeLondon oct27_0100_GMT) = 0.
Proof. repeat split; reflexivity. Qed.

(** C4.  In Europe/London at 01:57:00 summer time on 27 October 2024,
    with both readings of the clock at that instant, the function returns
    3780000 ms (63 minutes), although the next wall-clock minute
    divisible by five, 01:00 winter time, is 180000 ms away. *)
Theorem getNextFiveMinuteMark_overshoots_at_clock_change :
  Zoned.getNextFiveMinuteMark europeLondon oct27_0157_BST oct27_0157_BST
  = Some 3780000 /\
  Zoned.onFiveMinuteMark europeLondon (oct27_0157_BST + 180000) /\
  (forall t, oct27_0157_BST < t < oct27_0157_BST + 180000 ->
             ~ Zoned.onFiveMinuteMark europeLondon t) /\
  HourFromTime (Zoned.LocalTime europeLondon (oct27_0157_BST + 3780000)) = 2 /\
  MinFromTime (Zoned.LocalTime europeLondon (oct27_0157_BST + 3780000)) = 0.
Proof.
  split; [reflexivity |]. split; [repeat split |].
  split; [| split; reflexivity].
  intros t Ht (Hm & Hs & Hms).
  unfold Zoned.LocalTime, europeLondon, oct27_0157_BST, bstBegins, bstEnds,
    MinFromTime, SecFromTime, msFromTime, msPerHour, msPerMinute,
    msPerSecond in *.
  destruct (Z.leb_spec 1711846800000 t); [| lia].
  destruct (Z.ltb_spec t 1729990800000); [| lia].
  cbn [andb] in *. Z.div_mod_to_equations. lia.
Qed.

(** C10.  In Europe/London on 27 October 2024, with both readings of the
    clock at the same instant, the function returns -3420000 ms at
    01:32:00 winter time and -3300000 ms at 01:00:00 winter time, an
    instant on a five-minute mark: delays that are neither positive nor a
    full period.  In a zone of fixed offset (UTC), with the first reading
    at 14:04:59.999 and the second, one millisecond later, on the mark
    14:05:00.000, it returns 0. *)
Theorem getNextFiveMinuteMark_negative_at_clock_change :
  Zoned.getNextFiveMinuteMark europeLondon oct27_0132_GMT oct27_0132_GMT
  = Some (-3420000) /\
  Zoned.onFiveMinuteMark europeLondon oct27_0100_GMT /\
  Zoned.getNextFiveMinuteMark europeLondon oct27_0100_GMT oct27_0100_GMT
  = Some (-3300000) /\
  Zoned.onFiveMinuteMark (fixedZone 0) 1704117900000 /\
  Zoned.getNextFiveMinuteMark (fixedZone 0) 1704117899999 1704117900000
  = Some 0.
Proof. repeat split. Qed.

(** Away from the change of the clocks Europe/London behaves as a fixed
    zone: 14:03:00 summer time on 1 July 2024. *)
Example europeLondon_summer_afternoon :
  HourFromTime (Zoned.LocalTime europeLondon 1719838980000) = 14 /\
  MinFromTime (Zoned.LocalTime europeLondon 1719838980000) = 3 /\
  Zoned.getNextFiveMinuteMark europeLondon 1719838980000 1719838980000
  = Some 120000.
Proof. repeat split. Qed.

End ZonedFacts.

(* ================================================================== *)
(** ** Theorems: the chart over binary64 *)
(* ================================================================== *)

Module Chart64Facts.
Import Stdlib.Floats.PrimFloat.
Import Chart64.

(** The two sums on gas 0.2, nuclear 0.3, wind 0.1, as the doubles they
    are. *)
Example tenthsMix_sums :
  PrimFloat.add (PrimFloat.add (renewables tenthsMix) (fossilFuels tenthsMix))
    (others tenthsMix)
  = 0.60000000000000009%float /\
  total tenthsMix = 0.59999999999999998%float.
Proof. split; reflexivity. Qed.


End Chart64Facts.

(* ================================================================== *)
(** ** Theorems: the chart on whole percentages *)
(* ================================================================== *)

Module WholeFacts.
Import JS Mix Whole JSFacts MixFacts.




End WholeFacts.

(* ================================================================== *)
(** ** Theorems: Unknown fields and the proxies *)
(* ================================================================== *)

Module StatedFacts.
Import JS Home HomeFacts JSFacts Whole Stated GridInfoView GridInfoViewFacts.
Local Open Scope string_scope.

(** *** Printed numbers are never the text N/A *)

Lemma slash_zeros k : hasChar "/" (zeros k) = false.
Proof. induction k; simpl; [reflexivity | exact IHk]. Qed.

Lemma slash_digits d :
  hasChar "/" (DecimalString.NilEmpty.string_of_uint d) = false.
Proof. induction d; simpl; assumption || reflexivity. Qed.

Lemma slash_number n :
  hasChar "/" (DecimalString.NilZero.string_of_uint n) = false.
Proof.
  unfold DecimalString.NilZero.string_of_uint.
  destruct n; try reflexivity;
    match goal with
    | |- hasChar _ (DecimalString.NilEmpty.string_of_uint ?d) = false =>
        apply (slash_digits d)
    end.
Qed.

Lemma slash_placePoint f n : hasChar "/" (placePoint f n) = false.
Proof.
  unfold placePoint.
  set (m := (zeros _ ++ _)%string).
  assert (Hm : hasChar "/" m = false).
  { unfold m. rewrite hasChar_append, slash_zeros, slash_number.
    reflexivity. }
  destruct f as [| f]; [exact Hm |].
  rewrite !hasChar_append.
  destruct (hasChar "/" (substring 0 _ m)) eqn:E1.
  { apply hasChar_substring in E1. congruence. }
  destruct (hasChar "/" (substring _ (S f) m)) eqn:E2.
  { apply hasChar_substring in E2. congruence. }
  reflexivity.
Qed.

Lemma toFixed_not_NA f x : toFixed f x <> "N/A".
Proof.
  intros H.
  assert (E : hasChar "/" (toFixed f x) = false).
  { destruct x as [| [|] | q]; try reflexivity.
    unfold toFixed. destruct (Qle_bool 0 q).
    - apply slash_placePoint.
    - rewrite hasChar_append, slash_placePoint. reflexivity. }
  rewrite H in E. discriminate E.
Qed.

(** *** Sums of whole numbers *)

Lemma whole_nonzero z : truthyNumber (whole z) = negb (z =? 0)%Z.
Proof.
  unfold whole. simpl. f_equal.
  destruct (Z.eqb_spec z 0) as [-> | Hz]; [reflexivity |].
  apply not_true_iff_false. intros E. apply Qeq_bool_iff in E.
  unfold Qeq in E. simpl in E. lia.
Qed.

Lemma fold_whole (zs : list Z) : forall a,
  num_eq (fold_left add (map whole zs) (whole a))
         (whole (fold_left Z.add zs a)).
Proof.
  induction zs as [| z zs IH]; intros a; cbn [map fold_left].
  - reflexivity.
  - assert (E : num_eq (add (whole a) (whole z)) (whole (a + z))).
    { unfold whole. simpl. rewrite inject_Z_plus. reflexivity. }
    assert (P : forall l x y, num_eq x y ->
                  num_eq (fold_left add l x) (fold_left add l y)).
    { clear. induction l as [| n l IHl]; intros x y Hxy; cbn [fold_left];
        [exact Hxy |]. apply IHl. rewrite Hxy. reflexivity. }
    rewrite (P _ _ _ E). apply IH.
Qed.

Lemma truthyNumber_num_eq x y :
  num_eq x y -> truthyNumber x = truthyNumber y.
Proof.
  destruct x as [| a | p], y as [| b | q]; simpl; try contradiction;
    try reflexivity.
  intros E. rewrite (Qeqb_comp p q E 0%Q 0%Q (Qeq_refl 0%Q)). reflexivity.
Qed.

Lemma fold_add_pointwise (f g : string -> number) (cs : list string) :
  (forall c, In c cs -> num_eq (f c) (g c)) ->
  forall a b, num_eq a b ->
    num_eq (fold_left add (map f cs) a) (fold_left add (map g cs) b).
Proof.
  induction cs as [| c cs IH]; intros H a b Hab; cbn [map fold_left];
    [exact Hab |].
  apply IH.
  - intros x Hx. apply H. right. exact Hx.
  - rewrite Hab, (H c (or_introl eq_refl)). reflexivity.
Qed.

(** The flows of a record whose seven flow columns read as the whole
    numbers [flow]. *)
Lemma transfers_of_whole_flows latest (flow : string -> Z) :
  (forall column, In column flowColumns ->
                  num_eq (readNumber latest column) (whole (flow column))) ->
  num_eq (transfersOf latest) (whole (sumOf (map flow flowColumns))).
Proof.
  intros H. unfold transfersOf, sumOf.
  rewrite (fold_add_pointwise (readNumber latest)
             (fun c => whole (flow c)) flowColumns H zero zero
             ltac:(reflexivity)).
  rewrite <- (map_map flow whole).
  apply (fold_whole (map flow flowColumns) 0).
Qed.

Lemma sampleFlow_reads column :
  In column flowColumns ->
  num_eq (readNumber (demandRow (Some "32000") sampleFlows) column)
         (whole (sampleFlow column)).
Proof.
  unfold flowColumns. simpl.
  intros H.
  repeat (destruct H as [<- | H]; [vm_compute; reflexivity |]).
  contradiction.
Qed.

Lemma cancellingFlow_reads column :
  In column flowColumns ->
  num_eq (readNumber (demandRow (Some "32000") HomeSamples.cancellingFlows)
            column)
         (whole (cancellingFlow column)).
Proof.
  unfold flowColumns. simpl.
  intros H.
  repeat (destruct H as [<- | H]; [vm_compute; reflexivity |]).
  contradiction.
Qed.

(** *** C3 *)

(** C3, refuted as stated, in both halves: a price that is a text and no
    number is published as that text and not as Unknown, and a price of
    exactly zero is published as N/A and not as zero. *)
Lemma unknown_propagation_fails :
  ~ UnknownOnUnexpectedShape /\ ~ ZeroPublishedAsZero.
Proof.
  split; intros H.
  - specialize (H textPriceUpstream "14:05:00" _ _ eq_refl eq_refl).
    assert (C : forall n, VStr "abc" <> VNum n) by (intros n; discriminate).
    specialize (H C). vm_compute in H. discriminate H.
  - specialize (H zeroPriceUpstream "14:05:00" (samplePricing 0) _
                  eq_refl eq_refl eq_refl).
    vm_compute in H. discriminate H.
Qed.

(** C3, as the code has it.  When a feed fails, no snapshot is published
    and the one before stays.  In the snapshot of a completed cycle, the
    price and the emissions are the text N/A when their reading is falsy
    (absent, [null], zero, NaN, [false] or the empty text) and the
    reading itself, whatever its type, when it is truthy.  The demand is
    N/A when [ND] is absent, is no number or is zero, and a printed
    number when it is a whole number other than zero.  The transfers are
    N/A when every flow is absent, no number or zero, and, for flows that
    are whole numbers, N/A when they sum to zero and a printed number
    when they do not. *)
Theorem falsy_readings_published_not_available
    (up : upstream) (clock : string) (s : state) :
  (failed (energy_mix up) \/ failed (emissions_api up) \/
   failed (pricing_api up) \/ failed (demand_api up) ->
   gridInfo (fetchData up clock s) = gridInfo s) /\
  (forall (m : list Mix.GenerationMixItem) (em p d latest : value),
     energy_mix up = Return m ->
     emissions_api up = Return em ->
     pricing_api up = Return p ->
     demand_api up = Return d ->
     getProp d "data" = Return latest ->
     nullish latest = false ->
     exists g,
       gridInfo (fetchData up clock s) = Some g /\
       (truthy (priceReading p) = false -> price g = VStr "N/A") /\
       (truthy (priceReading p) = true -> price g = priceReading p) /\
       (truthy (emissionsReading em) = false -> emissions g = VStr "N/A") /\
       (truthy (emissionsReading em) = true ->
        emissions g = emissionsReading em) /\
       (truthyNumber (parseFloat (optProp latest "ND")) = false ->
        demand g = "N/A") /\
       (forall z, num_eq (parseFloat (optProp latest "ND")) (whole z) ->
                  (Z.abs z <= maxSafe)%Z ->
                  (z = 0%Z -> demand g = "N/A") /\
                  (z <> 0%Z -> demand g <> "N/A")) /\
       ((forall column, In column flowColumns ->
           truthyNumber (parseFloat (optProp latest column)) = false) ->
        transfers g = "N/A") /\
       (forall flow : string -> Z,
          (forall column, In column flowColumns ->
             num_eq (readNumber latest column) (whole (flow column))) ->
          (sumAbs (map flow flowColumns) <= maxSafe)%Z ->
          (sumOf (map flow flowColumns) = 0%Z -> transfers g = "N/A") /\
          (sumOf (map flow flowColumns) <> 0%Z -> transfers g <> "N/A"))).
Proof.
  split.
  { intros H. apply (fetchData_failed up clock s H). }
  intros m em p d latest Hm He Hp Hd Hl Hn.
  rewrite (fetchData_complete up clock s m em p d latest) by assumption.
  eexists. split; [reflexivity |].
  cbn [price emissions demand transfers].
  assert (Hor : forall v,
            (truthy v = false -> or v (VStr notAvailable) = VStr "N/A") /\
            (truthy v = true -> or v (VStr notAvailable) = v)).
  { intros v. unfold or. split; intros ->; reflexivity. }
  split; [apply Hor |]. split; [apply Hor |].
  split; [apply Hor |]. split; [apply Hor |].
  split.
  { intros Hf. unfold demandOf, readNumber.
    rewrite (orNumber_falsy _ Hf). reflexivity. }
  split.
  { intros z Hz _. unfold demandOf, readNumber.
    pose proof (truthyNumber_num_eq _ _ Hz) as T. rewrite whole_nonzero in T.
    split.
    - intros ->. change (negb (0 =? 0)%Z) with false in T.
      rewrite (orNumber_falsy _ T). reflexivity.
    - intros Hnz.
      assert (T' : truthyNumber (parseFloat (optProp latest "ND")) = true).
      { rewrite T. apply negb_true_iff. apply Z.eqb_neq. exact Hnz. }
      rewrite (orNumber_truthy _ T'), T'. apply toFixed_not_NA. }
  split.
  { intros Hflows.
    assert (Hz : forall column, In column flowColumns ->
                   readNumber latest column = zero).
    { intros column Hc. unfold readNumber.
      apply orNumber_falsy, Hflows, Hc. }
    unfold transfersOf, flowColumns in *. cbn [map].
    rewrite !Hz by (simpl; tauto). reflexivity. }
  intros flow Hflow _.
  pose proof (truthyNumber_num_eq _ _ (transfers_of_whole_flows latest flow Hflow))
    as T.
  rewrite whole_nonzero in T. split.
  - intros E. rewrite E in T. rewrite T. reflexivity.
  - intros Hnz.
    assert (T' : truthyNumber (transfersOf latest) = true).
    { rewrite T. apply negb_true_iff. apply Z.eqb_neq. exact Hnz. }
    rewrite T'. apply toFixed_not_NA.
Qed.

Lemma falsy_readings_published_not_available_witness :
  exists g,
    gridInfo (fetchData zeroPriceUpstream "14:05:00" initialState) = Some g /\
    price g = VStr "N/A" /\ emissions g = VNum (Num 120) /\
    demand g <> "N/A" /\ transfers g <> "N/A".
Proof.
  destruct (proj2 (falsy_readings_published_not_available
                     zeroPriceUpstream "14:05:00" initialState)
              Mix.scenarioMix sampleEmissions (samplePricing 0)
              (demandBody (demandRow (Some "32000") sampleFlows))
              (demandRow (Some "32000") sampleFlows)
              eq_refl eq_refl eq_refl eq_refl eq_refl eq_refl)
    as (g & Hg & Hp0 & _ & _ & Hem & _ & Hdem & _ & Htr).
  exists g. split; [exact Hg |].
  split; [exact (Hp0 eq_refl) |].
  split; [exact (Hem eq_refl) |].
  split.
  - apply (proj2 (Hdem 32000%Z ltac:(simpl; reflexivity)
                    ltac:(vm_compute; discriminate))).
    discriminate.
  - apply (proj2 (Htr sampleFlow
                    sampleFlow_reads
                    ltac:(vm_compute; discriminate))).
    vm_compute. discriminate.
Defined.

(** *** C8 *)

(** C8.  An upstream that answers the fetch of the demand route with
    status 503 and a line of plain text has failed; the text has a header
    and no record, and the demand handler replies 200 with
    [{data: undefined}], where the emissions and the pricing handler
    reply to the same answer with status 500 and their fixed
    [{error: ...}] body. *)
Theorem demand_route_passes_error_page :
  demandSourceFails unavailablePage /\
  Api.sampleParse "Service Unavailable" = Return [] /\
  demandRoute unavailablePage
  = {| Api.status := 200; Api.body := VObj [("data", VUndefined)] |} /\
  Api.emissionsHandler (received unavailablePage)
  = {| Api.status := 500;
       Api.body := VObj [("error", VStr "Failed to fetch emissions data")] |} /\
  Api.pricingHandler (received unavailablePage)
  = {| Api.status := 500;
       Api.body := VObj [("error", VStr "Failed to fetch pricing data")] |}.
Proof.
  split; [left; simpl; lia |]. repeat split.
Qed.

(** The error surface as the specification states it therefore does not
    hold of the demand route. *)
Lemma proxy_error_surface_fails : ~ Stated.ProxyErrorSurface.
Proof.
  intros H.
  destruct (H unavailablePage) as [[Hs _] _].
  - left. simpl. lia.
  - vm_compute in Hs. apply Hs. reflexivity.
Qed.

(** X23.  A handler replies 500 with its own fixed [{error: ...}] body,
    whatever the exception says, when something throws on its way: the
    fetch itself, the decoding of the body, the parser of the CSV text,
    or, for emissions and pricing, the check that the envelope has a
    truthy [data].  When nothing throws it replies 200: with the content
    of [data] for emissions and pricing, and for demand with the first
    record under [data], or with [{data: undefined}] when the text has no
    record. *)
Theorem proxy_replies
    (parse : string -> completion (list value)) (r : Api.Response)
    (detail : string) :
  (* the fetch itself fails *)
  (Api.emissionsHandler (Throw detail)
   = {| Api.status := 500;
        Api.body := VObj [("error", VStr "Failed to fetch emissions data")] |} /\
   Api.pricingHandler (Throw detail)
   = {| Api.status := 500;
        Api.body := VObj [("error", VStr "Failed to fetch pricing data")] |} /\
   Api.demandHandler parse (Throw detail)
   = {| Api.status := 500;
        Api.body := VObj [("error", VStr "Failed to fetch demand data")] |}) /\
  (* the body cannot be decoded *)
  (Api.json r = Throw detail ->
   Api.emissionsHandler (Return r)
   = {| Api.status := 500;
        Api.body := VObj [("error", VStr "Failed to fetch emissions data")] |} /\
   Api.pricingHandler (Return r)
   = {| Api.status := 500;
        Api.body := VObj [("error", VStr "Failed to fetch pricing data")] |}) /\
  (Api.text r = Throw detail ->
   Api.demandHandler parse (Return r)
   = {| Api.status := 500;
        Api.body := VObj [("error", VStr "Failed to fetch demand data")] |}) /\
  (* the parser refuses the text *)
  (forall csv, Api.text r = Return csv -> parse csv = Throw detail ->
   Api.demandHandler parse (Return r)
   = {| Api.status := 500;
        Api.body := VObj [("error", VStr "Failed to fetch demand data")] |}) /\
  (* the envelope has no truthy [data] *)
  (forall envelope, Api.json r = Return envelope ->
   getProp envelope "data" = Throw detail \/
   truthy (optProp envelope "data") = false ->
   Api.emissionsHandler (Return r)
   = {| Api.status := 500;
        Api.body := VObj [("error", VStr "Failed to fetch emissions data")] |} /\
   Api.pricingHandler (Return r)
   = {| Api.status := 500;
        Api.body := VObj [("error", VStr "Failed to fetch pricing data")] |}) /\
  (* nothing throws *)
  (forall envelope payload, Api.json r = Return envelope ->
   getProp envelope "data" = Return payload -> truthy payload = true ->
   Api.emissionsHandler (Return r)
   = {| Api.status := 200; Api.body := payload |} /\
   Api.pricingHandler (Return r)
   = {| Api.status := 200; Api.body := payload |}) /\
  (forall csv first rest, Api.text r = Return csv ->
   parse csv = Return (first :: rest) ->
   Api.demandHandler parse (Return r)
   = {| Api.status := 200; Api.body := VObj [("data", first)] |}) /\
  (forall csv, Api.text r = Return csv -> parse csv = Return [] ->
   Api.demandHandler parse (Return r)
   = {| Api.status := 200; Api.body := VObj [("data", VUndefined)] |}).
Proof.
  unfold Api.emissionsHandler, Api.pricingHandler, Api.demandHandler.
  repeat match goal with
  | |- _ /\ _ => split
  end; simpl; try reflexivity.
  - intros ->. split; reflexivity.
  - intros ->. reflexivity.
  - intros csv Ht Hp. rewrite Ht. simpl. rewrite Hp. reflexivity.
  - intros envelope -> [H | H].
    + simpl. rewrite H. split; reflexivity.
    + destruct envelope; simpl in *; try rewrite H; split; reflexivity.
  - intros envelope payload -> Hp Ht. simpl. rewrite Hp. simpl. rewrite Ht.
    split; reflexivity.
  - intros csv first rest Ht Hp. rewrite Ht. simpl. rewrite Hp. reflexivity.
  - intros csv Ht Hp. rewrite Ht. simpl. rewrite Hp. reflexivity.
Qed.

Lemma proxy_replies_witness :
  Api.emissionsHandler
    (Api.jsonResponse (VObj [("data", Home.sampleEmissions)]))
  = {| Api.status := 200; Api.body := Home.sampleEmissions |} /\
  Api.demandHandler Api.sampleParse
    (Return (Api.textResponse "ND,IFA_FLOW
32000,1000
31000,900
"))
  = {| Api.status := 200;
       Api.body := VObj [("data", VObj [("ND", VStr "32000");
                                        ("IFA_FLOW", VStr "1000")])] |} /\
  Api.demandHandler Api.sampleParse
    (Return (Api.textResponse "ND,IFA_FLOW
32000
"))
  = {| Api.status := 500;
       Api.body := VObj [("error", VStr "Failed to fetch demand data")] |}.
Proof.
  split; [| split].
  - pose proof (proxy_replies Api.sampleParse
                  {| Api.text := Throw "body used already";
                     Api.json := Return (VObj [("data", Home.sampleEmissions)]) |}
                  "") as H.
    destruct H as (_ & _ & _ & _ & _ & Hok & _).
    exact (proj1 (Hok _ _ eq_refl eq_refl eq_refl)).
  - pose proof (proxy_replies Api.sampleParse
                  (Api.textResponse "ND,IFA_FLOW
32000,1000
31000,900
") "") as H.
    destruct H as (_ & _ & _ & _ & _ & _ & Hfirst & _).
    exact (Hfirst _ _ _ eq_refl eq_refl).
  - pose proof (proxy_replies Api.sampleParse
                  (Api.textResponse "ND,IFA_FLOW
32000
") "Invalid Record Length") as H.
    destruct H as (_ & _ & _ & Hparse & _).
    exact (Hparse _ eq_refl eq_refl).
Defined.

(** *** X14 *)

Lemma whole_is_Num x z : num_eq x (whole z) -> exists q, x = Num q.
Proof. destruct x; simpl; try contradiction. eauto. Qed.

(** X14.  When the demand is a whole number other than zero and the
    flows are whole numbers that sum to zero, the snapshot shows the
    transfers as N/A, a printed number as demand, and as generation
    exactly the figure it shows as demand. *)
Theorem generation_equals_demand_without_transfers
    (up : upstream) (clock : string) (s : state)
    (m : list Mix.GenerationMixItem) (em p d latest : value)
    (z : Z) (flow : string -> Z) :
  energy_mix up = Return m ->
  emissions_api up = Return em ->
  pricing_api up = Return p ->
  demand_api up = Return d ->
  getProp d "data" = Return latest ->
  nullish latest = false ->
  num_eq (parseFloat (optProp latest "ND")) (whole z) ->
  z <> 0%Z -> (Z.abs z <= maxSafe)%Z ->
  (forall column, In column flowColumns ->
     num_eq (readNumber latest column) (whole (flow column))) ->
  (sumAbs (map flow flowColumns) <= maxSafe)%Z ->
  sumOf (map flow flowColumns) = 0%Z ->
  exists g,
    gridInfo (fetchData up clock s) = Some g /\
    transfers g = "N/A" /\
    demand g <> "N/A" /\
    generation g = demand g.
Proof.
  intros Hm He Hp Hd Hl Hn Hz Hnz _ Hflow _ Hsum.
  rewrite (fetchData_complete up clock s m em p d latest) by assumption.
  eexists. split; [reflexivity |].
  cbn [transfers demand generation].
  pose proof (transfers_of_whole_flows latest flow Hflow) as HT.
  rewrite Hsum in HT.
  pose proof (truthyNumber_num_eq _ _ HT) as T1. rewrite whole_nonzero in T1.
  change (negb (0 =? 0)%Z) with false in T1.
  pose proof (truthyNumber_num_eq _ _ Hz) as T2. rewrite whole_nonzero in T2.
  assert (T2' : truthyNumber (parseFloat (optProp latest "ND")) = true).
  { rewrite T2. apply negb_true_iff, Z.eqb_neq, Hnz. }
  assert (HD : demandOf latest = parseFloat (optProp latest "ND")).
  { unfold demandOf, readNumber. apply orNumber_truthy, T2'. }
  rewrite HD, T1, T2'.
  split; [reflexivity |]. split; [apply toFixed_not_NA |].
  destruct (whole_is_Num _ _ Hz) as [q Eq].
  destruct (whole_is_Num _ _ HT) as [t Et].
  rewrite Eq, Et. rewrite Et in HT. simpl in HT.
  cbn [div1000 sub neg add]. apply JSMoreFacts.toFixed_Qeq. rewrite HT.
  unfold Qdiv. ring.
Qed.

Lemma generation_equals_demand_without_transfers_witness :
  exists g,
    gridInfo (fetchData HomeSamples.cancellingFlowsUpstream "14:05:00"
                initialState) = Some g /\
    transfers g = "N/A" /\
    demand g <> "N/A" /\
    generation g = demand g.
Proof.
  refine (generation_equals_demand_without_transfers
            HomeSamples.cancellingFlowsUpstream "14:05:00" initialState
            Mix.scenarioMix sampleEmissions (samplePricing 85.5)
            (demandBody (demandRow (Some "32000") HomeSamples.cancellingFlows))
            (demandRow (Some "32000") HomeSamples.cancellingFlows)
            32000%Z cancellingFlow
            eq_refl eq_refl eq_refl eq_refl eq_refl eq_refl
            _ _ _ cancellingFlow_reads _ eq_refl).
  - vm_compute. reflexivity.
  - discriminate.
  - vm_compute. discriminate.
  - vm_compute. discriminate.
Defined.

End StatedFacts.
